(** * Role checks and status transitions of the operations backend

    A shallow embedding of the request handlers in
    [app/api/routers/finance.py], [app/api/routers/clients.py] and
    [app/api/routers/tasks.py], of the dependencies in [app/core/deps.py]
    they rely on, and of the SQLAlchemy models and pydantic schemas they
    read and write.

    A handler runs inside a SQLAlchemy session.  The session is modelled by
    two copies of the database: the rows as committed, and the rows as the
    unit of work sees them.  Attribute assignments and [db.add] touch the
    second copy only, [db.commit] publishes it, and an exception leaves the
    committed rows as they were (the session is closed by [get_db]).

    Outside the model: decoding of the bearer token (a handler receives the
    token subject), serialisation of the response, and the columns
    [updated_at] and [last_login], which no handler reads.  Integers are
    taken as they come: the 64 bits of an SQLite integer, beyond which the
    driver refuses a value with [OverflowError], are not modelled. *)

From Stdlib Require Import ZArith String Ascii Floats.
From stdpp Require Import base option list sorting gmap strings fin_maps.

Local Open Scope Z_scope.
Local Open Scope string_scope.

(** ** Schemas: enumerations and partially set payloads *)

(** [ExpenseCategoryEnum] of [app/schemas/expense.py]. *)
Inductive ExpenseCategoryEnum :=
  EQUIPMENT | TRAVEL | MEALS | SOFTWARE | SUPPLIES | OTHER.

(** [ExpenseStatusEnum] of [app/schemas/expense.py]. *)
Inductive ExpenseStatusEnum := SUBMITTED | APPROVED | REJECTED | REIMBURSED.

#[global] Instance ExpenseStatusEnum_eq_dec : EqDecision ExpenseStatusEnum.
Proof. solve_decision. Defined.

(** A field of an update schema ([Optional[X] = None]) as
    [dict(exclude_unset=True)] sees it: left out of the request, sent as
    [null], or sent with a value. *)
Inductive Field (A : Type) :=
| Unset
| Null
| Value (a : A).
Arguments Unset {A}.
Arguments Null {A}.
Arguments Value {A} a.

(** [name in update_data] *)
Definition is_set {A} (f : Field A) : bool :=
  match f with Unset => false | _ => true end.

(** [schema.name]: the attribute is [None] when unset or null. *)
Definition attr {A} (f : Field A) : option A :=
  match f with Value a => Some a | _ => None end.

(** [setattr(row, name, update_data[name])] on a nullable column. *)
Definition setattr_nullable {A} (f : Field A) (old : option A) : option A :=
  match f with Unset => old | Null => None | Value a => Some a end.

(** [setattr] on a [nullable=False] column.  [None] stands for a row that
    holds NULL in that column: the flush inside [db.commit] refuses it. *)
Definition setattr_required {A} (f : Field A) (old : A) : option A :=
  match f with Unset => Some old | Null => None | Value a => Some a end.

(** Python truthiness of an [Optional[int]] and of an [Optional[str]]. *)
Definition truthy_int (o : option Z) : bool :=
  match o with Some n => negb (Z.eqb n 0) | None => false end.

Definition truthy_str (o : option string) : bool :=
  match o with Some EmptyString | None => false | Some _ => true end.

(** ** Models *)

Module User.
(** [app/models/user.py]; the primary key is the key of the table. *)
Record t := { role : string; is_active : bool }.
End User.

Module Client.
Inductive ClientStatusEnum := ACTIVE | PENDING | INACTIVE.
Inductive ServicePlanEnum := BASIC | STANDARD | PREMIUM | ENTERPRISE.

(** [app/models/client.py], class [Client]. *)
Record t := {
  name : string;
  location : string;
  status : ClientStatusEnum;
  service_plan : ServicePlanEnum;
  notes : option string;
  onboarded_at : option Z
}.
End Client.

#[global] Instance ClientStatusEnum_eq_dec : EqDecision Client.ClientStatusEnum.
Proof. solve_decision. Defined.

Module Contact.
(** [app/models/client.py], class [Contact].  [is_primary] is a nullable
    Boolean column. *)
Record t := {
  client_id : Z;
  name : string;
  role : option string;
  department : option string;
  email : string;
  phone : option string;
  preferred_contact : option string;
  is_primary : option bool
}.
End Contact.

Module Quotation.
Inductive QuotationStatusEnum := DRAFT | SENT | ACCEPTED | REJECTED.

(** [app/models/client.py], class [Quotation]. *)
Record t := {
  client_id : Z;
  version : Z;
  html_content : string;
  status : QuotationStatusEnum;
  sent_at : option Z
}.
End Quotation.

#[global] Instance QuotationStatusEnum_eq_dec :
  EqDecision Quotation.QuotationStatusEnum.
Proof. solve_decision. Defined.

Module Task.
Inductive TaskPriorityEnum := HIGH | MEDIUM | LOW.
Inductive TaskStatusEnum := PENDING | IN_PROGRESS | COMPLETED.
Inductive TaskCategoryEnum := MEETING | CALL | DOCUMENTATION | DEVELOPMENT | OTHER.

(** [app/models/task.py].  [completion_percentage] and
    [reminder_enabled] are nullable columns with a default. *)
Record t := {
  title : string;
  description : option string;
  priority : TaskPriorityEnum;
  due_date : option Z;
  status : TaskStatusEnum;
  completion_percentage : option Z;
  owner_id : Z;
  assignee_id : option Z;
  client_id : option Z;
  category : option TaskCategoryEnum;
  completed_at : option Z;
  reminder_enabled : option bool;
  reminder_date : option Z
}.
End Task.

#[global] Instance TaskStatusEnum_eq_dec : EqDecision Task.TaskStatusEnum.
Proof. solve_decision. Defined.

Module Expense.
(** [app/models/expense.py]. *)
Record t := {
  description : string;
  amount : float;
  date : Z;
  category : ExpenseCategoryEnum;
  notes : option string;
  status : ExpenseStatusEnum;
  submitter_id : Z;
  approver_id : option Z;
  reimburser_id : option Z;
  created_at : Z;
  approved_at : option Z;
  reimbursed_at : option Z;
  client_id : option Z
}.
End Expense.

(** ** The database and the session *)

(** One table per model, keyed by the integer primary key. *)
Record DB := {
  users : gmap Z User.t;
  clients : gmap Z Client.t;
  contacts : gmap Z Contact.t;
  quotations : gmap Z Quotation.t;
  tasks : gmap Z Task.t;
  expenses : gmap Z Expense.t
}.

Definition with_contacts (d : DB) (m : gmap Z Contact.t) : DB :=
  {| users := users d; clients := clients d; contacts := m;
     quotations := quotations d; tasks := tasks d; expenses := expenses d |}.

Definition with_quotations (d : DB) (m : gmap Z Quotation.t) : DB :=
  {| users := users d; clients := clients d; contacts := contacts d;
     quotations := m; tasks := tasks d; expenses := expenses d |}.

Definition with_clients (d : DB) (m : gmap Z Client.t) : DB :=
  {| users := users d; clients := m; contacts := contacts d;
     quotations := quotations d; tasks := tasks d; expenses := expenses d |}.

Definition with_tasks (d : DB) (m : gmap Z Task.t) : DB :=
  {| users := users d; clients := clients d; contacts := contacts d;
     quotations := quotations d; tasks := m; expenses := expenses d |}.

Definition with_expenses (d : DB) (m : gmap Z Expense.t) : DB :=
  {| users := users d; clients := clients d; contacts := contacts d;
     quotations := quotations d; tasks := tasks d; expenses := m |}.

(** What a request can raise: [fastapi.HTTPException]; FastAPI's
    [RequestValidationError] for a parameter out of its declared range
    (answered with 422); and the two SQLAlchemy errors that reach the
    client as a server error. *)
Inductive Exception :=
| HTTPException (status_code : Z) (detail : string)
| RequestValidationError
| IntegrityError
| InvalidRequestError.

Inductive Outcome (A : Type) :=
| Return (a : A)
| Raise (e : Exception).
Arguments Return {A} a.
Arguments Raise {A} e.

Record Session := { committed : DB; pending : DB }.

(** A handler is a computation over the session that returns or raises. *)
Definition Handler (A : Type) : Type := Session → Session * Outcome A.

#[global] Instance Handler_ret : MRet Handler := λ A a s, (s, Return a).

#[global] Instance Handler_bind : MBind Handler := λ A B f m s,
  match m s with
  | (s', Return a) => f a s'
  | (s', Raise e) => (s', Raise e)
  end.

Definition raise {A} (e : Exception) : Handler A := λ s, (s, Raise e).

(** Read access to the rows of the unit of work. *)
Definition query {A} (q : DB → A) : Handler A := λ s, (s, Return (q (pending s))).

(** A write to the unit of work: attribute assignment on a loaded row,
    [db.add] of a new one. *)
Definition stage (f : DB → DB) : Handler unit :=
  λ s, ({| committed := committed s; pending := f (pending s) |}, Return tt).

(** [db.commit()] *)
Definition commit : Handler unit :=
  λ s, ({| committed := pending s; pending := pending s |}, Return tt).

(** The flush of a row some [nullable=False] column of which holds NULL. *)
Definition not_null {A} (row : option A) : Handler A :=
  match row with Some r => mret r | None => raise IntegrityError end.

(** One request: a fresh session on the committed rows; what the database
    holds afterwards, and what the handler returned or raised. *)
Definition request {A} (h : Handler A) (db : DB) : DB * Outcome A :=
  let '(s, r) := h {| committed := db; pending := db |} in (committed s, r).

(** ** Dependencies ([app/core/deps.py]) *)

Definition HTTP_400_BAD_REQUEST : Z := 400.
Definition HTTP_401_UNAUTHORIZED : Z := 401.
Definition HTTP_403_FORBIDDEN : Z := 403.
Definition HTTP_404_NOT_FOUND : Z := 404.

(** The user of the request: primary key and row. *)
Definition CurrentUser : Type := Z * User.t.

Definition get_current_user (sub : Z) : Handler CurrentUser :=
  user ← query (λ db, users db !! sub);
  match user with
  | None => raise (HTTPException HTTP_401_UNAUTHORIZED "Could not validate credentials")
  | Some u => mret (sub, u)
  end.

Definition get_current_active_user (sub : Z) : Handler CurrentUser :=
  current_user ← get_current_user sub;
  if negb (User.is_active current_user.2)
  then raise (HTTPException 400 "Inactive user")
  else mret current_user.

Definition get_current_manager_or_admin_user (sub : Z) : Handler CurrentUser :=
  current_user ← get_current_active_user sub;
  if negb (bool_decide (User.role current_user.2 ∈ ["admin"; "manager"]))
  then raise (HTTPException HTTP_403_FORBIDDEN "The user doesn't have enough privileges")
  else mret current_user.

Definition get_current_finance_admin_or_admin_user (sub : Z) : Handler CurrentUser :=
  current_user ← get_current_active_user sub;
  if negb (bool_decide (User.role current_user.2 ∈ ["admin"; "finance"]))
  then raise (HTTPException HTTP_403_FORBIDDEN "The user doesn't have enough privileges")
  else mret current_user.

(** ** Expenses ([app/schemas/expense.py], [app/api/routers/finance.py]) *)

Module ExpenseCreate.
Record t := {
  description : string;
  amount : float;
  date : Z;
  category : ExpenseCategoryEnum;
  notes : option string;
  client_id : option Z
}.
End ExpenseCreate.

Module ExpenseUpdate.
Record t := {
  description : Field string;
  amount : Field float;
  date : Field Z;
  category : Field ExpenseCategoryEnum;
  notes : Field string;
  status : Field ExpenseStatusEnum;
  client_id : Field Z
}.
End ExpenseUpdate.

Module ExpenseApproval.
Record t := { status : ExpenseStatusEnum; notes : option string }.
End ExpenseApproval.

(** [expense.status = s] *)
Definition expense_set_status (s : ExpenseStatusEnum) (e : Expense.t) : Expense.t :=
  {| Expense.description := Expense.description e; Expense.amount := Expense.amount e;
     Expense.date := Expense.date e; Expense.category := Expense.category e;
     Expense.notes := Expense.notes e; Expense.status := s;
     Expense.submitter_id := Expense.submitter_id e;
     Expense.approver_id := Expense.approver_id e;
     Expense.reimburser_id := Expense.reimburser_id e;
     Expense.created_at := Expense.created_at e;
     Expense.approved_at := Expense.approved_at e;
     Expense.reimbursed_at := Expense.reimbursed_at e;
     Expense.client_id := Expense.client_id e |}.

(** [expense.approver_id = uid; expense.approved_at = func.now()] *)
Definition expense_set_approver (uid now : Z) (e : Expense.t) : Expense.t :=
  {| Expense.description := Expense.description e; Expense.amount := Expense.amount e;
     Expense.date := Expense.date e; Expense.category := Expense.category e;
     Expense.notes := Expense.notes e; Expense.status := Expense.status e;
     Expense.submitter_id := Expense.submitter_id e;
     Expense.approver_id := Some uid;
     Expense.reimburser_id := Expense.reimburser_id e;
     Expense.created_at := Expense.created_at e;
     Expense.approved_at := Some now;
     Expense.reimbursed_at := Expense.reimbursed_at e;
     Expense.client_id := Expense.client_id e |}.

(** [expense.reimburser_id = uid; expense.reimbursed_at = func.now()] *)
Definition expense_set_reimburser (uid now : Z) (e : Expense.t) : Expense.t :=
  {| Expense.description := Expense.description e; Expense.amount := Expense.amount e;
     Expense.date := Expense.date e; Expense.category := Expense.category e;
     Expense.notes := Expense.notes e; Expense.status := Expense.status e;
     Expense.submitter_id := Expense.submitter_id e;
     Expense.approver_id := Expense.approver_id e;
     Expense.reimburser_id := Some uid;
     Expense.created_at := Expense.created_at e;
     Expense.approved_at := Expense.approved_at e;
     Expense.reimbursed_at := Some now;
     Expense.client_id := Expense.client_id e |}.

(** [expense.notes = n] *)
Definition expense_set_notes (n : option string) (e : Expense.t) : Expense.t :=
  {| Expense.description := Expense.description e; Expense.amount := Expense.amount e;
     Expense.date := Expense.date e; Expense.category := Expense.category e;
     Expense.notes := n; Expense.status := Expense.status e;
     Expense.submitter_id := Expense.submitter_id e;
     Expense.approver_id := Expense.approver_id e;
     Expense.reimburser_id := Expense.reimburser_id e;
     Expense.created_at := Expense.created_at e;
     Expense.approved_at := Expense.approved_at e;
     Expense.reimbursed_at := Expense.reimbursed_at e;
     Expense.client_id := Expense.client_id e |}.

(** The [ExpenseModel] built by [create_expense] from the fields of
    [expense_in], the submitter and the status [submitted]; [created_at] is
    the server default. *)
Definition new_expense (expense_in : ExpenseCreate.t) (uid now : Z) : Expense.t :=
  {| Expense.description := ExpenseCreate.description expense_in;
     Expense.amount := ExpenseCreate.amount expense_in;
     Expense.date := ExpenseCreate.date expense_in;
     Expense.category := ExpenseCreate.category expense_in;
     Expense.notes := ExpenseCreate.notes expense_in;
     Expense.status := SUBMITTED;
     Expense.submitter_id := uid;
     Expense.approver_id := None;
     Expense.reimburser_id := None;
     Expense.created_at := now;
     Expense.approved_at := None;
     Expense.reimbursed_at := None;
     Expense.client_id := ExpenseCreate.client_id expense_in |}.

(** [Session.delete] of an object that was never added to a session:
    SQLAlchemy raises [InvalidRequestError] ("Instance is not persisted"). *)
Definition delete_transient : Handler unit := raise InvalidRequestError.

Definition create_expense (now : Z) (expense_in : ExpenseCreate.t) (sub : Z)
  : Handler Expense.t :=
  current_user ← get_current_active_user sub;
  (if truthy_int (ExpenseCreate.client_id expense_in) then
     client ← query (λ db, ExpenseCreate.client_id expense_in ≫= λ c, clients db !! c);
     match client with
     | None => raise (HTTPException HTTP_404_NOT_FOUND "Client not found")
     | Some _ => mret tt
     end
   else mret tt);;
  let expense := new_expense expense_in current_user.1 now in
  delete_transient;;
  commit;;
  mret expense.

(** The f-string of [approve_expense]. *)
Definition approval_notes (old new : string) : string :=
  String.append old
    (String.append (String "010" (String "010" "Approval notes: ")) new).

Definition approve_expense (now expense_id : Z) (approval : ExpenseApproval.t) (sub : Z)
  : Handler Expense.t :=
  current_user ← get_current_manager_or_admin_user sub;
  expense ← query (λ db, expenses db !! expense_id);
  match expense with
  | None => raise (HTTPException HTTP_404_NOT_FOUND "Expense not found")
  | Some expense =>
    if bool_decide (Expense.status expense ≠ SUBMITTED) then
      raise (HTTPException HTTP_400_BAD_REQUEST
               (String.append "Cannot approve/reject expense with status"
                  (match Expense.status expense with
                   | SUBMITTED => " 'submitted'" | APPROVED => " 'approved'"
                   | REJECTED => " 'rejected'" | REIMBURSED => " 'reimbursed'"
                   end)))
    else
      let expense := expense_set_status (ExpenseApproval.status approval) expense in
      let expense := expense_set_approver current_user.1 now expense in
      let expense :=
        if truthy_str (ExpenseApproval.notes approval) then
          expense_set_notes
            (if negb (truthy_str (Expense.notes expense))
             then ExpenseApproval.notes approval
             else Some (approval_notes (default "" (Expense.notes expense))
                          (default "" (ExpenseApproval.notes approval))))
            expense
        else expense in
      stage (λ db, with_expenses db (<[expense_id := expense]> (expenses db)));;
      commit;;
      mret expense
  end.

Definition reimburse_expense (now expense_id : Z) (sub : Z) : Handler Expense.t :=
  current_user ← get_current_finance_admin_or_admin_user sub;
  expense ← query (λ db, expenses db !! expense_id);
  match expense with
  | None => raise (HTTPException HTTP_404_NOT_FOUND "Expense not found")
  | Some expense =>
    if bool_decide (Expense.status expense ≠ APPROVED) then
      raise (HTTPException HTTP_400_BAD_REQUEST "Can only reimburse approved expenses")
    else
      let expense := expense_set_status REIMBURSED expense in
      let expense := expense_set_reimburser current_user.1 now expense in
      stage (λ db, with_expenses db (<[expense_id := expense]> (expenses db)));;
      commit;;
      mret expense
  end.

(** The loop [for field in update_data: setattr(expense, field, ...)].
    [None] when a [nullable=False] column ends up NULL. *)
Definition expense_setattrs (u : ExpenseUpdate.t) (e : Expense.t) : option Expense.t :=
  description ← setattr_required (ExpenseUpdate.description u) (Expense.description e);
  amount ← setattr_required (ExpenseUpdate.amount u) (Expense.amount e);
  date ← setattr_required (ExpenseUpdate.date u) (Expense.date e);
  category ← setattr_required (ExpenseUpdate.category u) (Expense.category e);
  status ← setattr_required (ExpenseUpdate.status u) (Expense.status e);
  Some
    {| Expense.description := description; Expense.amount := amount;
       Expense.date := date; Expense.category := category;
       Expense.notes := setattr_nullable (ExpenseUpdate.notes u) (Expense.notes e);
       Expense.status := status;
       Expense.submitter_id := Expense.submitter_id e;
       Expense.approver_id := Expense.approver_id e;
       Expense.reimburser_id := Expense.reimburser_id e;
       Expense.created_at := Expense.created_at e;
       Expense.approved_at := Expense.approved_at e;
       Expense.reimbursed_at := Expense.reimbursed_at e;
       Expense.client_id := setattr_nullable (ExpenseUpdate.client_id u) (Expense.client_id e) |}.

Definition update_expense (now expense_id : Z) (expense_in : ExpenseUpdate.t) (sub : Z)
  : Handler Expense.t :=
  current_user ← get_current_active_user sub;
  let role := User.role current_user.2 in
  expense ← query (λ db, expenses db !! expense_id);
  match expense with
  | None => raise (HTTPException HTTP_404_NOT_FOUND "Expense not found")
  | Some expense =>
    if bool_decide (role = "employee")
       && bool_decide (Expense.submitter_id expense ≠ current_user.1) then
      raise (HTTPException HTTP_403_FORBIDDEN
               "You don't have permission to update this expense")
    else if bool_decide (role = "employee")
            && bool_decide (Expense.status expense ≠ SUBMITTED) then
      raise (HTTPException HTTP_403_FORBIDDEN
               "You can only update expenses in 'submitted' status")
    else
      let status := ExpenseUpdate.status expense_in in
      expense ←
        (if is_set status && bool_decide (role ∈ ["admin"; "manager"; "finance"]) then
           if bool_decide (role = "finance")
              && bool_decide (attr status ≠ Some REIMBURSED) then
             raise (HTTPException HTTP_403_FORBIDDEN
                      "Finance admin can only change status to 'reimbursed'")
           else if bool_decide (role = "manager")
                   && negb (bool_decide (attr status ∈ [Some APPROVED; Some REJECTED])) then
             raise (HTTPException HTTP_403_FORBIDDEN
                      "Managers can only approve or reject expenses")
           else if bool_decide (attr status = Some APPROVED) then
             mret (expense_set_approver current_user.1 now expense)
           else if bool_decide (attr status = Some REIMBURSED) then
             mret (expense_set_reimburser current_user.1 now expense)
           else mret expense
         else mret expense);
      expense ← not_null (expense_setattrs expense_in expense);
      stage (λ db, with_expenses db (<[expense_id := expense]> (expenses db)));;
      commit;;
      mret expense
  end.

(** Fourteen days, in the seconds of the timestamps. *)
Definition timedelta_days_14 : Z := 14 * 86400.

(** The handler ends after its permission checks: no [db.delete], no
    [db.commit], and the value returned is Python's [None]. *)
Definition delete_expense (now expense_id : Z) (sub : Z) : Handler (option Expense.t) :=
  current_user ← get_current_active_user sub;
  let role := User.role current_user.2 in
  expense ← query (λ db, expenses db !! expense_id);
  match expense with
  | None => raise (HTTPException HTTP_404_NOT_FOUND "Expense not found")
  | Some expense =>
    if bool_decide (role = "employee") then
      if bool_decide (Expense.submitter_id expense ≠ current_user.1) then
        raise (HTTPException HTTP_403_FORBIDDEN
                 "You don't have permission to delete this expense")
      else if bool_decide (Expense.status expense ≠ SUBMITTED) then
        raise (HTTPException HTTP_403_FORBIDDEN
                 "You can only delete expenses in 'submitted' status")
      else mret None
    else if bool_decide (role = "manager") then
      if bool_decide (Expense.status expense = REIMBURSED) then
        raise (HTTPException HTTP_403_FORBIDDEN "You cannot delete reimbursed expenses")
      else mret None
    else if bool_decide (role = "finance") then
      let two_weeks_ago := now - timedelta_days_14 in
      if bool_decide (Expense.created_at expense > two_weeks_ago) then
        raise (HTTPException HTTP_403_FORBIDDEN
                 "You can only delete expenses that are at least 2 weeks old")
      else mret None
    else mret None
  end.

(** ** Queries and request validation shared by the routers *)

(** [db.query(Model).filter(...).first()] for a filter other than the
    primary key: the matching row with the lowest primary key, SQLite
    reading the rows of a table in the order of their keys. *)
Definition by_key {A} (row1 row2 : Z * A) : Prop := (row1.1 ≤ row2.1)%Z.

#[global] Instance by_key_dec {A} : RelDecision (@by_key A) :=
  λ row1 row2, decide (row1.1 ≤ row2.1)%Z.

Definition first {A} (P : Z → A → bool) (table : gmap Z A) : option (Z * A) :=
  List.find (λ row, P row.1 row.2) (merge_sort by_key (map_to_list table)).

(** [filter(Model.id == id, Model.client_id == client_id).first()] *)
Definition child_of {A} (client_of : A → Z) (table : gmap Z A) (id client_id : Z)
  : option A :=
  match table !! id with
  | Some row => if bool_decide (client_of row = client_id) then Some row else None
  | None => None
  end.

(** The key an integer primary key column gives to a new row: SQLite
    takes the successor of the largest key of the table, and 1 when the
    table is empty. *)
Definition next_id {A} (table : gmap Z A) : Z :=
  foldr (λ row, Z.max row.1) 0 (map_to_list table) + 1.

(** The bounds of [Path(..., gt=0)] and [Query(..., ge=0, le=100)]. *)
Definition validate (ok : bool) : Handler unit :=
  if ok then mret tt else raise RequestValidationError.

(** ** Clients, contacts and quotations
       ([app/schemas/client.py], [app/api/routers/clients.py]) *)

Module ClientUpdate.
Record t := {
  name : Field string;
  location : Field string;
  status : Field Client.ClientStatusEnum;
  service_plan : Field Client.ServicePlanEnum;
  notes : Field string
}.
End ClientUpdate.

Module ContactCreate.
Record t := {
  name : string;
  role : option string;
  department : option string;
  email : string;
  phone : option string;
  preferred_contact : option string;
  is_primary : bool;
  client_id : Z
}.
End ContactCreate.

Module ContactUpdate.
Record t := {
  name : Field string;
  role : Field string;
  department : Field string;
  email : Field string;
  phone : Field string;
  preferred_contact : Field string;
  is_primary : Field bool
}.
End ContactUpdate.

Module QuotationCreate.
Record t := {
  html_content : string;
  status : Quotation.QuotationStatusEnum;
  client_id : Z
}.
End QuotationCreate.

Module QuotationUpdate.
Record t := {
  html_content : Field string;
  status : Field Quotation.QuotationStatusEnum
}.
End QuotationUpdate.

(** [client.onboarded_at = func.now()] *)
Definition client_set_onboarded_at (now : Z) (c : Client.t) : Client.t :=
  {| Client.name := Client.name c; Client.location := Client.location c;
     Client.status := Client.status c; Client.service_plan := Client.service_plan c;
     Client.notes := Client.notes c; Client.onboarded_at := Some now |}.

Definition client_setattrs (u : ClientUpdate.t) (c : Client.t) : option Client.t :=
  name ← setattr_required (ClientUpdate.name u) (Client.name c);
  location ← setattr_required (ClientUpdate.location u) (Client.location c);
  status ← setattr_required (ClientUpdate.status u) (Client.status c);
  service_plan ← setattr_required (ClientUpdate.service_plan u) (Client.service_plan c);
  Some
    {| Client.name := name; Client.location := location; Client.status := status;
       Client.service_plan := service_plan;
       Client.notes := setattr_nullable (ClientUpdate.notes u) (Client.notes c);
       Client.onboarded_at := Client.onboarded_at c |}.

Definition update_client (now client_id : Z) (client_in : ClientUpdate.t) (sub : Z)
  : Handler Client.t :=
  current_user ← get_current_manager_or_admin_user sub;
  validate (bool_decide (client_id > 0));;
  client ← query (λ db, clients db !! client_id);
  match client with
  | None => raise (HTTPException HTTP_404_NOT_FOUND "Client not found")
  | Some client =>
    let client :=
      if bool_decide (attr (ClientUpdate.status client_in) = Some Client.ACTIVE)
         && bool_decide (Client.status client ≠ Client.ACTIVE)
      then client_set_onboarded_at now client
      else client in
    client ← not_null (client_setattrs client_in client);
    stage (λ db, with_clients db (<[client_id := client]> (clients db)));;
    commit;;
    mret client
  end.

(** [contact.is_primary = b] *)
Definition contact_set_is_primary (b : option bool) (c : Contact.t) : Contact.t :=
  {| Contact.client_id := Contact.client_id c; Contact.name := Contact.name c;
     Contact.role := Contact.role c; Contact.department := Contact.department c;
     Contact.email := Contact.email c; Contact.phone := Contact.phone c;
     Contact.preferred_contact := Contact.preferred_contact c;
     Contact.is_primary := b |}.

(** The [ContactModel] built from all the fields of the payload, its
    [client_id] included. *)
Definition new_contact (contact_in : ContactCreate.t) : Contact.t :=
  {| Contact.client_id := ContactCreate.client_id contact_in;
     Contact.name := ContactCreate.name contact_in;
     Contact.role := ContactCreate.role contact_in;
     Contact.department := ContactCreate.department contact_in;
     Contact.email := ContactCreate.email contact_in;
     Contact.phone := ContactCreate.phone contact_in;
     Contact.preferred_contact := ContactCreate.preferred_contact contact_in;
     Contact.is_primary := Some (ContactCreate.is_primary contact_in) |}.

(** The filter [client_id == c, is_primary == True] of the two contact
    handlers; a NULL flag does not match. *)
Definition is_primary_of (client_id : Z) (c : Contact.t) : bool :=
  bool_decide (Contact.client_id c = client_id)
  && bool_decide (Contact.is_primary c = Some true).

(** [existing_primary.is_primary = False], when there is such a row. *)
Definition demote (existing_primary : option (Z * Contact.t)) : Handler unit :=
  match existing_primary with
  | Some (k, c) =>
      stage (λ db, with_contacts db
                     (<[k := contact_set_is_primary (Some false) c]> (contacts db)))
  | None => mret tt
  end.

Definition create_client_contact (client_id : Z) (contact_in : ContactCreate.t) (sub : Z)
  : Handler (Z * Contact.t) :=
  current_user ← get_current_active_user sub;
  validate (bool_decide (client_id > 0));;
  client ← query (λ db, clients db !! client_id);
  match client with
  | None => raise (HTTPException HTTP_404_NOT_FOUND "Client not found")
  | Some _ =>
    (if ContactCreate.is_primary contact_in then
       existing_primary ← query (λ db, first (λ _, is_primary_of client_id) (contacts db));
       demote existing_primary
     else mret tt);;
    let contact := new_contact contact_in in
    contact_id ← query (λ db, next_id (contacts db));
    stage (λ db, with_contacts db (<[contact_id := contact]> (contacts db)));;
    commit;;
    mret (contact_id, contact)
  end.

Definition contact_setattrs (u : ContactUpdate.t) (c : Contact.t) : option Contact.t :=
  name ← setattr_required (ContactUpdate.name u) (Contact.name c);
  email ← setattr_required (ContactUpdate.email u) (Contact.email c);
  Some
    {| Contact.client_id := Contact.client_id c; Contact.name := name;
       Contact.role := setattr_nullable (ContactUpdate.role u) (Contact.role c);
       Contact.department :=
         setattr_nullable (ContactUpdate.department u) (Contact.department c);
       Contact.email := email;
       Contact.phone := setattr_nullable (ContactUpdate.phone u) (Contact.phone c);
       Contact.preferred_contact :=
         setattr_nullable (ContactUpdate.preferred_contact u) (Contact.preferred_contact c);
       Contact.is_primary :=
         setattr_nullable (ContactUpdate.is_primary u) (Contact.is_primary c) |}.

Definition update_client_contact (client_id contact_id : Z) (contact_in : ContactUpdate.t)
    (sub : Z) : Handler Contact.t :=
  current_user ← get_current_active_user sub;
  validate (bool_decide (client_id > 0));;
  validate (bool_decide (contact_id > 0));;
  contact ← query (λ db, child_of Contact.client_id (contacts db) contact_id client_id);
  match contact with
  | Some contact =>
    (if bool_decide (attr (ContactUpdate.is_primary contact_in) = Some true)
        && negb (bool_decide (Contact.is_primary contact = Some true)) then
       existing_primary ←
         query (λ db, first (λ k c, is_primary_of client_id c
                                    && bool_decide (k ≠ contact_id)) (contacts db));
       demote existing_primary
     else mret tt);;
    contact ← not_null (contact_setattrs contact_in contact);
    stage (λ db, with_contacts db (<[contact_id := contact]> (contacts db)));;
    commit;;
    mret contact
  | None => raise (HTTPException HTTP_404_NOT_FOUND "Contact not found")
  end.

(** [db.query(func.max(QuotationModel.version)).filter(client_id == c).scalar()]:
    [None] when the client has no quotation. *)
Definition max_version (client_id : Z) (table : gmap Z Quotation.t) : option Z :=
  match List.filter (λ row, bool_decide (Quotation.client_id row.2 = client_id))
          (map_to_list table) with
  | [] => None
  | row :: rows => Some (foldr (λ r, Z.max (Quotation.version r.2))
                           (Quotation.version row.2) rows)
  end.

(** The [QuotationModel] built from the fields of the payload, its
    [client_id] included, and the version. *)
Definition new_quotation (quotation_in : QuotationCreate.t) (version : Z) : Quotation.t :=
  {| Quotation.client_id := QuotationCreate.client_id quotation_in;
     Quotation.version := version;
     Quotation.html_content := QuotationCreate.html_content quotation_in;
     Quotation.status := QuotationCreate.status quotation_in;
     Quotation.sent_at := None |}.

Definition create_client_quotation (client_id : Z) (quotation_in : QuotationCreate.t)
    (sub : Z) : Handler (Z * Quotation.t) :=
  current_user ← get_current_manager_or_admin_user sub;
  validate (bool_decide (client_id > 0));;
  client ← query (λ db, clients db !! client_id);
  match client with
  | None => raise (HTTPException HTTP_404_NOT_FOUND "Client not found")
  | Some _ =>
    latest_version ← query (λ db, default 0 (max_version client_id (quotations db)));
    let quotation := new_quotation quotation_in (latest_version + 1) in
    quotation_id ← query (λ db, next_id (quotations db));
    stage (λ db, with_quotations db (<[quotation_id := quotation]> (quotations db)));;
    commit;;
    mret (quotation_id, quotation)
  end.

(** [quotation.sent_at = func.now()] *)
Definition quotation_set_sent_at (now : Z) (q : Quotation.t) : Quotation.t :=
  {| Quotation.client_id := Quotation.client_id q; Quotation.version := Quotation.version q;
     Quotation.html_content := Quotation.html_content q;
     Quotation.status := Quotation.status q; Quotation.sent_at := Some now |}.

Definition quotation_setattrs (u : QuotationUpdate.t) (q : Quotation.t)
  : option Quotation.t :=
  html_content ← setattr_required (QuotationUpdate.html_content u) (Quotation.html_content q);
  status ← setattr_required (QuotationUpdate.status u) (Quotation.status q);
  Some
    {| Quotation.client_id := Quotation.client_id q;
       Quotation.version := Quotation.version q;
       Quotation.html_content := html_content; Quotation.status := status;
       Quotation.sent_at := Quotation.sent_at q |}.

Definition update_client_quotation (now client_id quotation_id : Z)
    (quotation_in : QuotationUpdate.t) (sub : Z) : Handler Quotation.t :=
  current_user ← get_current_manager_or_admin_user sub;
  validate (bool_decide (client_id > 0));;
  validate (bool_decide (quotation_id > 0));;
  quotation ←
    query (λ db, child_of Quotation.client_id (quotations db) quotation_id client_id);
  match quotation with
  | None => raise (HTTPException HTTP_404_NOT_FOUND "Quotation not found")
  | Some quotation =>
    let quotation :=
      if bool_decide (attr (QuotationUpdate.status quotation_in) = Some Quotation.SENT)
         && bool_decide (Quotation.status quotation ≠ Quotation.SENT)
      then quotation_set_sent_at now quotation
      else quotation in
    quotation ← not_null (quotation_setattrs quotation_in quotation);
    stage (λ db, with_quotations db (<[quotation_id := quotation]> (quotations db)));;
    commit;;
    mret quotation
  end.

(** ** Tasks ([app/schemas/task.py], [app/api/routers/tasks.py]) *)

Module TaskUpdate.
Record t := {
  title : Field string;
  description : Field string;
  priority : Field Task.TaskPriorityEnum;
  due_date : Field Z;
  status : Field Task.TaskStatusEnum;
  completion_percentage : Field Z;
  assignee_id : Field Z;
  category : Field Task.TaskCategoryEnum;
  client_id : Field Z;
  reminder_enabled : Field bool;
  reminder_date : Field Z
}.
End TaskUpdate.

(** Assignments to [task.status], [task.completion_percentage],
    [task.completed_at] and [task.assignee_id]. *)
Definition task_set_status (s : Task.TaskStatusEnum) (t : Task.t) : Task.t :=
  {| Task.title := Task.title t; Task.description := Task.description t;
     Task.priority := Task.priority t; Task.due_date := Task.due_date t;
     Task.status := s;
     Task.completion_percentage := Task.completion_percentage t;
     Task.owner_id := Task.owner_id t; Task.assignee_id := Task.assignee_id t;
     Task.client_id := Task.client_id t; Task.category := Task.category t;
     Task.completed_at := Task.completed_at t;
     Task.reminder_enabled := Task.reminder_enabled t;
     Task.reminder_date := Task.reminder_date t |}.

Definition task_set_completion_percentage (p : option Z) (t : Task.t) : Task.t :=
  {| Task.title := Task.title t; Task.description := Task.description t;
     Task.priority := Task.priority t; Task.due_date := Task.due_date t;
     Task.status := Task.status t;
     Task.completion_percentage := p;
     Task.owner_id := Task.owner_id t; Task.assignee_id := Task.assignee_id t;
     Task.client_id := Task.client_id t; Task.category := Task.category t;
     Task.completed_at := Task.completed_at t;
     Task.reminder_enabled := Task.reminder_enabled t;
     Task.reminder_date := Task.reminder_date t |}.

Definition task_set_completed_at (at_ : option Z) (t : Task.t) : Task.t :=
  {| Task.title := Task.title t; Task.description := Task.description t;
     Task.priority := Task.priority t; Task.due_date := Task.due_date t;
     Task.status := Task.status t;
     Task.completion_percentage := Task.completion_percentage t;
     Task.owner_id := Task.owner_id t; Task.assignee_id := Task.assignee_id t;
     Task.client_id := Task.client_id t; Task.category := Task.category t;
     Task.completed_at := at_;
     Task.reminder_enabled := Task.reminder_enabled t;
     Task.reminder_date := Task.reminder_date t |}.

Definition task_set_assignee_id (a : option Z) (t : Task.t) : Task.t :=
  {| Task.title := Task.title t; Task.description := Task.description t;
     Task.priority := Task.priority t; Task.due_date := Task.due_date t;
     Task.status := Task.status t;
     Task.completion_percentage := Task.completion_percentage t;
     Task.owner_id := Task.owner_id t; Task.assignee_id := a;
     Task.client_id := Task.client_id t; Task.category := Task.category t;
     Task.completed_at := Task.completed_at t;
     Task.reminder_enabled := Task.reminder_enabled t;
     Task.reminder_date := Task.reminder_date t |}.

Definition task_setattrs (u : TaskUpdate.t) (t : Task.t) : option Task.t :=
  title ← setattr_required (TaskUpdate.title u) (Task.title t);
  priority ← setattr_required (TaskUpdate.priority u) (Task.priority t);
  status ← setattr_required (TaskUpdate.status u) (Task.status t);
  Some
    {| Task.title := title;
       Task.description := setattr_nullable (TaskUpdate.description u) (Task.description t);
       Task.priority := priority;
       Task.due_date := setattr_nullable (TaskUpdate.due_date u) (Task.due_date t);
       Task.status := status;
       Task.completion_percentage :=
         setattr_nullable (TaskUpdate.completion_percentage u) (Task.completion_percentage t);
       Task.owner_id := Task.owner_id t;
       Task.assignee_id := setattr_nullable (TaskUpdate.assignee_id u) (Task.assignee_id t);
       Task.client_id := setattr_nullable (TaskUpdate.client_id u) (Task.client_id t);
       Task.category := setattr_nullable (TaskUpdate.category u) (Task.category t);
       Task.completed_at := Task.completed_at t;
       Task.reminder_enabled :=
         setattr_nullable (TaskUpdate.reminder_enabled u) (Task.reminder_enabled t);
       Task.reminder_date :=
         setattr_nullable (TaskUpdate.reminder_date u) (Task.reminder_date t) |}.

(** The permission check shared by [update_task] and [complete_task]. *)
Definition employee_not_on_task (current_user : CurrentUser) (task : Task.t) : bool :=
  bool_decide (User.role current_user.2 = "employee")
  && bool_decide (Task.owner_id task ≠ current_user.1)
  && bool_decide (Task.assignee_id task ≠ Some current_user.1).

Definition update_task (now task_id : Z) (task_in : TaskUpdate.t) (sub : Z)
  : Handler Task.t :=
  current_user ← get_current_active_user sub;
  validate (bool_decide (task_id > 0));;
  task ← query (λ db, tasks db !! task_id);
  match task with
  | None => raise (HTTPException HTTP_404_NOT_FOUND "Task not found")
  | Some task =>
    let assignee_id := attr (TaskUpdate.assignee_id task_in) in
    if employee_not_on_task current_user task then
      raise (HTTPException HTTP_403_FORBIDDEN
               "You don't have permission to update this task")
    else if bool_decide (assignee_id ≠ None)
            && bool_decide (User.role current_user.2 = "employee")
            && bool_decide (assignee_id ≠ Some current_user.1) then
      raise (HTTPException HTTP_403_FORBIDDEN "You can only assign tasks to yourself")
    else
      client ← query (λ db, attr (TaskUpdate.client_id task_in) ≫= λ c, clients db !! c);
      if bool_decide (attr (TaskUpdate.client_id task_in) ≠ None)
         && bool_decide (client = None) then
        raise (HTTPException HTTP_404_NOT_FOUND "Client not found")
      else
        assignee ← query (λ db, assignee_id ≫= λ a, users db !! a);
        if bool_decide (assignee_id ≠ None) && bool_decide (assignee = None) then
          raise (HTTPException HTTP_404_NOT_FOUND "Assignee not found")
        else
          let task :=
            if is_set (TaskUpdate.status task_in)
               && bool_decide (attr (TaskUpdate.status task_in) = Some Task.COMPLETED)
               && bool_decide (Task.status task ≠ Task.COMPLETED)
            then task_set_completed_at (Some now) task
            else task in
          task ← not_null (task_setattrs task_in task);
          stage (λ db, with_tasks db (<[task_id := task]> (tasks db)));;
          commit;;
          mret task
  end.

Definition complete_task (now task_id completion_percentage : Z) (sub : Z)
  : Handler Task.t :=
  current_user ← get_current_active_user sub;
  validate (bool_decide (task_id > 0));;
  validate (bool_decide (0 ≤ completion_percentage ≤ 100)%Z);;
  task ← query (λ db, tasks db !! task_id);
  match task with
  | None => raise (HTTPException HTTP_404_NOT_FOUND "Task not found")
  | Some task =>
    if employee_not_on_task current_user task then
      raise (HTTPException HTTP_403_FORBIDDEN
               "You don't have permission to update this task")
    else
      let task := task_set_completion_percentage (Some completion_percentage) task in
      let task :=
        if bool_decide (completion_percentage = 100) then
          task_set_completed_at (Some now) (task_set_status Task.COMPLETED task)
        else if bool_decide (Task.status task = Task.COMPLETED)
                && bool_decide (completion_percentage < 100) then
          task_set_completed_at None (task_set_status Task.IN_PROGRESS task)
        else task in
      stage (λ db, with_tasks db (<[task_id := task]> (tasks db)));;
      commit;;
      mret task
  end.

Definition assign_task (task_id assignee_id : Z) (sub : Z) : Handler Task.t :=
  current_user ← get_current_active_user sub;
  validate (bool_decide (task_id > 0));;
  validate (bool_decide (assignee_id > 0));;
  task ← query (λ db, tasks db !! task_id);
  match task with
  | None => raise (HTTPException HTTP_404_NOT_FOUND "Task not found")
  | Some task =>
    if bool_decide (User.role current_user.2 = "employee")
       && bool_decide (Task.owner_id task ≠ current_user.1) then
      raise (HTTPException HTTP_403_FORBIDDEN
               "You don't have permission to assign this task")
    else if bool_decide (User.role current_user.2 = "employee")
            && bool_decide (assignee_id ≠ current_user.1) then
      raise (HTTPException HTTP_403_FORBIDDEN "You can only assign tasks to yourself")
    else
      assignee ← query (λ db, users db !! assignee_id);
      match assignee with
      | None => raise (HTTPException HTTP_404_NOT_FOUND "Assignee not found")
      | Some _ =>
        let task := task_set_assignee_id (Some assignee_id) task in
        let task :=
          if bool_decide (Task.status task = Task.PENDING)
          then task_set_status Task.IN_PROGRESS task
          else task in
        stage (λ db, with_tasks db (<[task_id := task]> (tasks db)));;
        commit;;
        mret task
      end
  end.

(** ** The invariants of the specification *)

(** The number of contacts of a client whose [is_primary] flag is true. *)
Definition primary_count (table : gmap Z Contact.t) (client_id : Z) : nat :=
  length (List.filter (λ row, is_primary_of client_id row.2) (map_to_list table)).


(** "At most one [is_primary = true] contact per client". *)
Definition at_most_one_primary (table : gmap Z Contact.t) : Prop :=
  ∀ client_id, (primary_count table client_id ≤ 1)%nat.

(** "[completion_percentage = 100] if and only if [status = completed]". *)
Definition completion_consistent (t : Task.t) : Prop :=
  Task.completion_percentage t = Some 100 ↔ Task.status t = Task.COMPLETED.

(** The versions of the quotations of a client. *)
Definition versions_of (table : gmap Z Quotation.t) (client_id : Z) : list Z :=
  (λ row, Quotation.version row.2) <$>
    List.filter (λ row, bool_decide (Quotation.client_id row.2 = client_id))
      (map_to_list table).
(** ** The remaining handlers of the routers

    The database is the SQLite file named in [app/core/config.py].  The
    models declare no relationship from a user to the rows that name it,
    and SQLite does not enforce foreign keys unless a connection asks for
    it, so the deletion of a user is modelled as the removal of that one
    row: tasks and expenses keep the identifier. *)

Definition get_current_admin_user (sub : Z) : Handler CurrentUser :=
  current_user ← get_current_active_user sub;
  if bool_decide (User.role current_user.2 ≠ "admin")
  then raise (HTTPException HTTP_403_FORBIDDEN "The user doesn't have enough privileges")
  else mret current_user.

(** [app/api/routers/users.py] *)

Definition get_user_by_id (user_id : Z) (sub : Z) : Handler User.t :=
  current_user ← get_current_active_user sub;
  if bool_decide (User.role current_user.2 ≠ "admin")
     && bool_decide (current_user.1 ≠ user_id) then
    raise (HTTPException HTTP_403_FORBIDDEN "The user doesn't have enough privileges")
  else
    user ← query (λ db, users db !! user_id);
    match user with
    | None => raise (HTTPException HTTP_404_NOT_FOUND "User not found")
    | Some user => mret user
    end.

Definition with_users (d : DB) (m : gmap Z User.t) : DB :=
  {| users := m; clients := clients d; contacts := contacts d;
     quotations := quotations d; tasks := tasks d; expenses := expenses d |}.

Definition delete_user (user_id : Z) (sub : Z) : Handler User.t :=
  current_user ← get_current_admin_user sub;
  user ← query (λ db, users db !! user_id);
  match user with
  | None => raise (HTTPException HTTP_404_NOT_FOUND "User not found")
  | Some user =>
    if bool_decide (user_id = current_user.1) then
      raise (HTTPException HTTP_400_BAD_REQUEST "Cannot delete your own user account")
    else
      stage (λ db, with_users db (delete user_id (users db)));;
      commit;;
      mret user
  end.

(** [app/api/routers/clients.py] *)

Definition delete_client_contact (client_id contact_id : Z) (sub : Z)
  : Handler Contact.t :=
  current_user ← get_current_active_user sub;
  validate (bool_decide (client_id > 0));;
  validate (bool_decide (contact_id > 0));;
  contact ← query (λ db, child_of Contact.client_id (contacts db) contact_id client_id);
  match contact with
  | None => raise (HTTPException HTTP_404_NOT_FOUND "Contact not found")
  | Some contact =>
    stage (λ db, with_contacts db (delete contact_id (contacts db)));;
    commit;;
    mret contact
  end.

(** [app/api/routers/finance.py] *)



(** [app/schemas/task.py], [app/api/routers/tasks.py] *)

Module TaskCreate.
Record t := {
  title : string;
  description : option string;
  priority : Task.TaskPriorityEnum;
  due_date : option Z;
  category : option Task.TaskCategoryEnum;
  client_id : option Z;
  assignee_id : option Z
}.
End TaskCreate.

(** The [TaskModel] built by [create_task]; status, percentage and
    reminder flag are the defaults of the columns. *)
Definition new_task (task_in : TaskCreate.t) (owner_id : Z) : Task.t :=
  {| Task.title := TaskCreate.title task_in;
     Task.description := TaskCreate.description task_in;
     Task.priority := TaskCreate.priority task_in;
     Task.due_date := TaskCreate.due_date task_in;
     Task.status := Task.PENDING;
     Task.completion_percentage := Some 0;
     Task.owner_id := owner_id;
     Task.assignee_id := TaskCreate.assignee_id task_in;
     Task.client_id := TaskCreate.client_id task_in;
     Task.category := TaskCreate.category task_in;
     Task.completed_at := None;
     Task.reminder_enabled := Some false;
     Task.reminder_date := None |}.

Definition create_task (task_in : TaskCreate.t) (sub : Z) : Handler (Z * Task.t) :=
  current_user ← get_current_active_user sub;
  (if truthy_int (TaskCreate.client_id task_in) then
     client ← query (λ db, TaskCreate.client_id task_in ≫= λ c, clients db !! c);
     match client with
     | None => raise (HTTPException HTTP_404_NOT_FOUND "Client not found")
     | Some _ => mret tt
     end
   else mret tt);;
  (if truthy_int (TaskCreate.assignee_id task_in) then
     assignee ← query (λ db, TaskCreate.assignee_id task_in ≫= λ a, users db !! a);
     match assignee with
     | None => raise (HTTPException HTTP_404_NOT_FOUND "Assignee not found")
     | Some _ =>
       if bool_decide (User.role current_user.2 = "employee")
          && bool_decide (TaskCreate.assignee_id task_in ≠ Some current_user.1) then
         raise (HTTPException HTTP_403_FORBIDDEN "You can only assign tasks to yourself")
       else mret tt
     end
   else mret tt);;
  let task := new_task task_in current_user.1 in
  task_id ← query (λ db, next_id (tasks db));
  stage (λ db, with_tasks db (<[task_id := task]> (tasks db)));;
  commit;;
  mret (task_id, task).


Definition delete_task (task_id : Z) (sub : Z) : Handler Task.t :=
  current_user ← get_current_active_user sub;
  validate (bool_decide (task_id > 0));;
  task ← query (λ db, tasks db !! task_id);
  match task with
  | None => raise (HTTPException HTTP_404_NOT_FOUND "Task not found")
  | Some task =>
    if bool_decide (User.role current_user.2 = "employee")
       && bool_decide (Task.owner_id task ≠ current_user.1) then
      raise (HTTPException HTTP_403_FORBIDDEN
               "You don't have permission to delete this task")
    else
      stage (λ db, with_tasks db (delete task_id (tasks db)));;
      commit;;
      mret task
  end.

(** ** Sample data

    The scenario of the specification: employee 3 has submitted a travel
    expense of 120; user 1 is an admin, 2 a manager, 4 works in finance and
    5 is a second employee. *)

Definition sample_users : gmap Z User.t :=
  <[1 := {| User.role := "admin"; User.is_active := true |}]>
  (<[2 := {| User.role := "manager"; User.is_active := true |}]>
  (<[3 := {| User.role := "employee"; User.is_active := true |}]>
  (<[4 := {| User.role := "finance"; User.is_active := true |}]>
  (<[5 := {| User.role := "employee"; User.is_active := true |}]> ∅)))).

Definition travel_expense : Expense.t :=
  {| Expense.description := "Train to client site"; Expense.amount := 120%float;
     Expense.date := 1700000000; Expense.category := TRAVEL;
     Expense.notes := None; Expense.status := SUBMITTED;
     Expense.submitter_id := 3; Expense.approver_id := None;
     Expense.reimburser_id := None; Expense.created_at := 1700000000;
     Expense.approved_at := None; Expense.reimbursed_at := None;
     Expense.client_id := None |}.

(** Client 1 was active once and is inactive now; it has two contacts, the
    first of them primary.  Client 2 has one primary contact and two
    quotations, version 2 of which has been sent.  Task 1 of employee 3 is
    pending and nobody is assigned to it. *)
Definition sample_clients : gmap Z Client.t :=
  <[1 := {| Client.name := "Hillside Clinic"; Client.location := "Kigali";
            Client.status := Client.INACTIVE; Client.service_plan := Client.BASIC;
            Client.notes := None; Client.onboarded_at := Some 1600000000 |}]>
  (<[2 := {| Client.name := "Lakeview School"; Client.location := "Musanze";
             Client.status := Client.ACTIVE; Client.service_plan := Client.PREMIUM;
             Client.notes := None; Client.onboarded_at := Some 1650000000 |}]> ∅).

Definition sample_contact (client_id : Z) (name : string) (is_primary : bool)
  : Contact.t :=
  {| Contact.client_id := client_id; Contact.name := name; Contact.role := None;
     Contact.department := None; Contact.email := "office@example.org";
     Contact.phone := None; Contact.preferred_contact := Some "email";
     Contact.is_primary := Some is_primary |}.

Definition sample_contacts : gmap Z Contact.t :=
  <[1 := sample_contact 1 "Alice" true]>
  (<[2 := sample_contact 1 "Bob" false]>
  (<[3 := sample_contact 2 "Carol" true]> ∅)).

Definition sample_quotations : gmap Z Quotation.t :=
  <[1 := {| Quotation.client_id := 2; Quotation.version := 1;
            Quotation.html_content := "<p>Fibre 50</p>";
            Quotation.status := Quotation.REJECTED; Quotation.sent_at := Some 1640000000 |}]>
  (<[2 := {| Quotation.client_id := 2; Quotation.version := 2;
             Quotation.html_content := "<p>Fibre 100</p>";
             Quotation.status := Quotation.ACCEPTED; Quotation.sent_at := Some 1645000000 |}]> ∅).

Definition sample_task : Task.t :=
  {| Task.title := "Survey the site"; Task.description := None;
     Task.priority := Task.MEDIUM; Task.due_date := None;
     Task.status := Task.PENDING; Task.completion_percentage := Some 0;
     Task.owner_id := 3; Task.assignee_id := None; Task.client_id := None;
     Task.category := None; Task.completed_at := None;
     Task.reminder_enabled := Some false; Task.reminder_date := None |}.

Definition sample_db : DB :=
  {| users := sample_users; clients := sample_clients; contacts := sample_contacts;
     quotations := sample_quotations; tasks := {[ 1 := sample_task ]};
     expenses := {[ 1 := travel_expense ]} |}.

Definition travel_expense_create : ExpenseCreate.t :=
  {| ExpenseCreate.description := "Train to client site";
     ExpenseCreate.amount := 120%float; ExpenseCreate.date := 1700000000;
     ExpenseCreate.category := TRAVEL; ExpenseCreate.notes := None;
     ExpenseCreate.client_id := None |}.

(** An update request that carries the field [status] and nothing else. *)
Definition expense_status_update (s : ExpenseStatusEnum) : ExpenseUpdate.t :=
  {| ExpenseUpdate.description := Unset; ExpenseUpdate.amount := Unset;
     ExpenseUpdate.date := Unset; ExpenseUpdate.category := Unset;
     ExpenseUpdate.notes := Unset; ExpenseUpdate.status := Value s;
     ExpenseUpdate.client_id := Unset |}.

(** A contact for client 2, sent to the route of client 1. *)
Definition misrouted_contact : ContactCreate.t :=
  {| ContactCreate.name := "Dave"; ContactCreate.role := None;
     ContactCreate.department := None; ContactCreate.email := "dave@example.org";
     ContactCreate.phone := None; ContactCreate.preferred_contact := Some "email";
     ContactCreate.is_primary := true; ContactCreate.client_id := 2 |}.

(** A quotation for client 2, sent to the route of client 1. *)
Definition misrouted_quotation : QuotationCreate.t :=
  {| QuotationCreate.html_content := "<p>Fibre 200</p>";
     QuotationCreate.status := Quotation.DRAFT; QuotationCreate.client_id := 2 |}.

Definition client_status_update (s : Client.ClientStatusEnum) : ClientUpdate.t :=
  {| ClientUpdate.name := Unset; ClientUpdate.location := Unset;
     ClientUpdate.status := Value s; ClientUpdate.service_plan := Unset;
     ClientUpdate.notes := Unset |}.

Definition quotation_status_update (s : Quotation.QuotationStatusEnum)
  : QuotationUpdate.t :=
  {| QuotationUpdate.html_content := Unset; QuotationUpdate.status := Value s |}.

(** [{"completion_percentage": p}] and [{"assignee_id": a}]. *)
Definition task_update_percentage (p : Z) : TaskUpdate.t :=
  {| TaskUpdate.title := Unset; TaskUpdate.description := Unset;
     TaskUpdate.priority := Unset; TaskUpdate.due_date := Unset;
     TaskUpdate.status := Unset; TaskUpdate.completion_percentage := Value p;
     TaskUpdate.assignee_id := Unset; TaskUpdate.category := Unset;
     TaskUpdate.client_id := Unset; TaskUpdate.reminder_enabled := Unset;
     TaskUpdate.reminder_date := Unset |}.

Definition task_update_assignee (a : Z) : TaskUpdate.t :=
  {| TaskUpdate.title := Unset; TaskUpdate.description := Unset;
     TaskUpdate.priority := Unset; TaskUpdate.due_date := Unset;
     TaskUpdate.status := Unset; TaskUpdate.completion_percentage := Unset;
     TaskUpdate.assignee_id := Value a; TaskUpdate.category := Unset;
     TaskUpdate.client_id := Unset; TaskUpdate.reminder_enabled := Unset;
     TaskUpdate.reminder_date := Unset |}.



(** The travel expense with a note, and a rejection that carries a note. *)
Definition noted_db : DB :=
  with_expenses sample_db {[ 1 := expense_set_notes (Some "Taxi") travel_expense ]}.

Definition rejection : ExpenseApproval.t :=
  {| ExpenseApproval.status := REJECTED; ExpenseApproval.notes := Some "No receipt" |}.

(** A task that an employee creates for themselves. *)
Definition cabling_task : TaskCreate.t :=
  {| TaskCreate.title := "Order cabling"; TaskCreate.description := None;
     TaskCreate.priority := Task.HIGH; TaskCreate.due_date := None;
     TaskCreate.category := None; TaskCreate.client_id := Some 2;
     TaskCreate.assignee_id := Some 3 |}.

(** Task 1 once it has been completed, and an update that carries the
    field [status] only. *)
Definition completed_task : Task.t :=
  task_set_completed_at (Some 1690000000)
    (task_set_status Task.COMPLETED
       (task_set_completion_percentage (Some 100) sample_task)).

Definition completed_db : DB := with_tasks sample_db {[ 1 := completed_task ]}.

Definition task_update_status (s : Task.TaskStatusEnum) : TaskUpdate.t :=
  {| TaskUpdate.title := Unset; TaskUpdate.description := Unset;
     TaskUpdate.priority := Unset; TaskUpdate.due_date := Unset;
     TaskUpdate.status := Value s; TaskUpdate.completion_percentage := Unset;
     TaskUpdate.assignee_id := Unset; TaskUpdate.category := Unset;
     TaskUpdate.client_id := Unset; TaskUpdate.reminder_enabled := Unset;
     TaskUpdate.reminder_date := Unset |}.

(** An update that makes a contact primary and sends [null] for its name. *)
Definition nameless_primary_update : ContactUpdate.t :=
  {| ContactUpdate.name := Null; ContactUpdate.role := Unset;
     ContactUpdate.department := Unset; ContactUpdate.email := Unset;
     ContactUpdate.phone := Unset; ContactUpdate.preferred_contact := Unset;
     ContactUpdate.is_primary := Value true |}.

(** * Properties *)

(** ** Running the dependencies *)

(** Unfolds the plumbing of a handler down to the session it returns. *)
Ltac run_handler :=
  unfold request, mbind, Handler_bind, mret, Handler_ret, raise, query, stage,
    commit, not_null; simpl.

Lemma run_get_current_user sub s :
  get_current_user sub s =
    match users (pending s) !! sub with
    | Some u => (s, Return (sub, u))
    | None => (s, Raise (HTTPException 401 "Could not validate credentials"))
    end.
Proof.
  unfold get_current_user. run_handler.
  by destruct (users (pending s) !! sub).
Qed.

Lemma run_get_current_active_user sub s :
  get_current_active_user sub s =
    match users (pending s) !! sub with
    | Some u =>
        if User.is_active u then (s, Return (sub, u))
        else (s, Raise (HTTPException 400 "Inactive user"))
    | None => (s, Raise (HTTPException 401 "Could not validate credentials"))
    end.
Proof.
  unfold get_current_active_user, mbind, Handler_bind.
  rewrite run_get_current_user.
  destruct (users (pending s) !! sub) as [u|]; simpl; [|done].
  by destruct (User.is_active u).
Qed.

Lemma run_get_current_manager_or_admin_user sub s :
  get_current_manager_or_admin_user sub s =
    match users (pending s) !! sub with
    | Some u =>
        if User.is_active u then
          if bool_decide (User.role u ∈ ["admin"; "manager"])
          then (s, Return (sub, u))
          else (s, Raise (HTTPException 403 "The user doesn't have enough privileges"))
        else (s, Raise (HTTPException 400 "Inactive user"))
    | None => (s, Raise (HTTPException 401 "Could not validate credentials"))
    end.
Proof.
  unfold get_current_manager_or_admin_user, mbind, Handler_bind.
  rewrite run_get_current_active_user.
  destruct (users (pending s) !! sub) as [u|]; simpl; [|done].
  destruct (User.is_active u); simpl; [|done].
  by case_bool_decide.
Qed.

Lemma run_get_current_finance_admin_or_admin_user sub s :
  get_current_finance_admin_or_admin_user sub s =
    match users (pending s) !! sub with
    | Some u =>
        if User.is_active u then
          if bool_decide (User.role u ∈ ["admin"; "finance"])
          then (s, Return (sub, u))
          else (s, Raise (HTTPException 403 "The user doesn't have enough privileges"))
        else (s, Raise (HTTPException 400 "Inactive user"))
    | None => (s, Raise (HTTPException 401 "Could not validate credentials"))
    end.
Proof.
  unfold get_current_finance_admin_or_admin_user, mbind, Handler_bind.
  rewrite run_get_current_active_user.
  destruct (users (pending s) !! sub) as [u|]; simpl; [|done].
  destruct (User.is_active u); simpl; [|done].
  by case_bool_decide.
Qed.

(** ** Expenses *)

(** What [reimburse_expense] does to the database, case by case. *)
Lemma run_reimburse_expense db now expense_id sub :
  request (reimburse_expense now expense_id sub) db =
    match users db !! sub with
    | None => (db, Raise (HTTPException 401 "Could not validate credentials"))
    | Some u =>
      if User.is_active u then
        if bool_decide (User.role u ∈ ["admin"; "finance"]) then
          match expenses db !! expense_id with
          | None => (db, Raise (HTTPException 404 "Expense not found"))
          | Some expense =>
            if bool_decide (Expense.status expense ≠ APPROVED) then
              (db, Raise (HTTPException 400 "Can only reimburse approved expenses"))
            else
              let r := expense_set_reimburser sub now
                         (expense_set_status REIMBURSED expense) in
              (with_expenses db (<[expense_id := r]> (expenses db)), Return r)
          end
        else (db, Raise (HTTPException 403 "The user doesn't have enough privileges"))
      else (db, Raise (HTTPException 400 "Inactive user"))
    end.
Proof.
  unfold request, reimburse_expense, mbind at 1, Handler_bind at 1.
  rewrite run_get_current_finance_admin_or_admin_user. simpl.
  destruct (users db !! sub) as [u|]; [|done].
  destruct (User.is_active u); [|done].
  case_bool_decide; [|done].
  run_handler.
  destruct (expenses db !! expense_id) as [expense|]; [|done].
  by case_bool_decide.
Qed.

(** C1, as the code has it.  A reimburse request on an expense whose
    status is not [approved] raises and leaves the database as it was; for
    a caller who passes the role dependency the exception is the 400 state
    conflict.  A reimburse request that returns started from [approved],
    and it does return from there for an active [admin] or [finance] user:
    the stored row then has status [reimbursed], the caller as reimburser
    and the time of the request, and no other expense has changed.  The
    handler reads the stored status and nothing else: how the expense came
    to be [approved] plays no part. *)
Theorem reimburse_expense_only_from_approved
    (db : DB) (now expense_id sub : Z) (expense : Expense.t) :
  expenses db !! expense_id = Some expense →
  (Expense.status expense ≠ APPROVED →
     ∃ e, request (reimburse_expense now expense_id sub) db = (db, Raise e) ∧
       (∀ u, users db !! sub = Some u → User.is_active u = true →
          User.role u ∈ ["admin"; "finance"] →
          e = HTTPException 400 "Can only reimburse approved expenses"))
  ∧ (∀ db' r, request (reimburse_expense now expense_id sub) db = (db', Return r) →
       Expense.status expense = APPROVED ∧
       r = expense_set_reimburser sub now (expense_set_status REIMBURSED expense) ∧
       db' = with_expenses db (<[expense_id := r]> (expenses db)) ∧
       expenses db' !! expense_id = Some r ∧
       Expense.status r = REIMBURSED ∧
       Expense.reimburser_id r = Some sub ∧
       Expense.reimbursed_at r = Some now ∧
       ∀ j, j ≠ expense_id → expenses db' !! j = expenses db !! j)
  ∧ (Expense.status expense = APPROVED →
     ∀ u, users db !! sub = Some u → User.is_active u = true →
       User.role u ∈ ["admin"; "finance"] →
       let r := expense_set_reimburser sub now (expense_set_status REIMBURSED expense) in
       request (reimburse_expense now expense_id sub) db =
         (with_expenses db (<[expense_id := r]> (expenses db)), Return r)).
Proof.
  intros Hexp. rewrite run_reimburse_expense, Hexp.
  split; [|split].
  - intros Hst.
    destruct (users db !! sub) as [u|]; [|by eexists].
    destruct (User.is_active u) eqn:Ha.
    + rewrite (bool_decide_true _ Hst).
      case_bool_decide as Hr.
      * by eexists.
      * eexists; split; [done|]. intros u' Hu' _ Hr'. by simplify_eq.
    + eexists; split; [done|]. intros u' Hu' Ha'. simplify_eq. congruence.
  - intros db' r.
    destruct (users db !! sub) as [u|]; [|done].
    destruct (User.is_active u); [|done].
    case_bool_decide; [|done].
    case_bool_decide as Hst; [done|].
    simpl. intros [= <- <-].
    split; [by destruct (decide (Expense.status expense = APPROVED))|].
    split; [done|]. split; [done|]. simpl.
    split; [by rewrite lookup_insert_eq|].
    repeat split. intros j Hj. by rewrite lookup_insert_ne.
  - intros Hst u Hu Ha Hr. rewrite Hu, Ha.
    rewrite bool_decide_true by done.
    rewrite bool_decide_false by (by intros []).
    done.
Qed.

Lemma reimburse_expense_only_from_approved_witness :
  request (reimburse_expense 1700100000 1 4) sample_db
  = (sample_db, Raise (HTTPException 400 "Can only reimburse approved expenses")).
Proof.
  destruct (reimburse_expense_only_from_approved sample_db 1700100000 1 4
              travel_expense eq_refl) as [H _].
  destruct H as (e & -> & He); [done|].
  by rewrite (He {| User.role := "finance"; User.is_active := true |}
                eq_refl eq_refl ltac:(set_solver)).
Defined.

(** C1, as the specification has it, fails: [submitted], [approved],
    [reimbursed] is not the only way to [reimbursed].  Expense 1 is
    [submitted].  A finance user who sends the status [reimbursed] to
    [update_expense] has it stored, and the expense was never approved.
    And when a manager rejects the expense and then sends the status
    [approved] to [update_expense], the reimburse operation serves the
    rejected expense. *)
Lemma reimbursed_without_approval :
  (Expense.status <$> expenses sample_db !! 1) = Some SUBMITTED
  ∧ (let db1 := (request (update_expense 1700100000 1
                            (expense_status_update REIMBURSED) 4) sample_db).1 in
     (Expense.status <$> expenses db1 !! 1) = Some REIMBURSED
     ∧ (Expense.approver_id <$> expenses db1 !! 1) = Some None)
  ∧ (let db1 := (request (approve_expense 1700100000 1 rejection 2) sample_db).1 in
     let db2 := (request (update_expense 1700200000 1
                            (expense_status_update APPROVED) 2) db1).1 in
     let db3 := (request (reimburse_expense 1700300000 1 4) db2).1 in
     (Expense.status <$> expenses db1 !! 1) = Some REJECTED
     ∧ (Expense.status <$> expenses db2 !! 1) = Some APPROVED
     ∧ (Expense.status <$> expenses db3 !! 1) = Some REIMBURSED
     ∧ (Expense.reimburser_id <$> expenses db3 !! 1) = Some (Some 4)).
Proof. vm_compute. repeat split; reflexivity. Qed.


(** C10. For a submitted expense and an active [admin] or [manager],
    [approve_expense] returns, and the row it returns is the row the
    database then holds for the expense: its status is the status of the
    payload, whichever of the four values that is, with the caller as
    approver and the time of the request as [approved_at]; no other row
    changes. *)
Theorem approve_expense_copies_status
    (db : DB) (now expense_id sub : Z) (approval : ExpenseApproval.t)
    (u : User.t) (expense : Expense.t) :
  users db !! sub = Some u → User.is_active u = true →
  User.role u ∈ ["admin"; "manager"] →
  expenses db !! expense_id = Some expense →
  Expense.status expense = SUBMITTED →
  ∃ db' r, request (approve_expense now expense_id approval sub) db = (db', Return r)
       ∧ db' = with_expenses db (<[expense_id := r]> (expenses db))
       ∧ expenses db' !! expense_id = Some r
       ∧ (∀ j, j ≠ expense_id → expenses db' !! j = expenses db !! j)
       ∧ Expense.status r = ExpenseApproval.status approval
       ∧ Expense.approver_id r = Some sub
       ∧ Expense.approved_at r = Some now.
Proof.
  intros Hu Ha Hr Hexp Hst.
  unfold request, approve_expense, mbind at 1, Handler_bind at 1.
  rewrite run_get_current_manager_or_admin_user. simpl.
  rewrite Hu, Ha, (bool_decide_true _ Hr).
  run_handler. rewrite Hexp.
  rewrite bool_decide_false by (by intros []).
  eexists _, _; split; [done|]. split; [done|]. simpl.
  split; [by rewrite lookup_insert_eq|].
  split; [intros j Hj; by rewrite lookup_insert_ne|].
  by destruct (truthy_str (ExpenseApproval.notes approval)).
Qed.

Lemma approve_expense_copies_status_witness :
  ∃ db' r, request (approve_expense 1700100000 1
                      {| ExpenseApproval.status := REIMBURSED;
                         ExpenseApproval.notes := None |} 2) sample_db
           = (db', Return r)
       ∧ db' = with_expenses sample_db (<[1 := r]> (expenses sample_db))
       ∧ expenses db' !! 1 = Some r
       ∧ (∀ j, j ≠ 1 → expenses db' !! j = expenses sample_db !! j)
       ∧ Expense.status r = REIMBURSED
       ∧ Expense.approver_id r = Some 2
       ∧ Expense.approved_at r = Some 1700100000.
Proof.
  apply (approve_expense_copies_status sample_db 1700100000 1 2
           {| ExpenseApproval.status := REIMBURSED; ExpenseApproval.notes := None |}
           {| User.role := "manager"; User.is_active := true |} travel_expense);
    [reflexivity | reflexivity | set_solver | reflexivity | reflexivity].
Defined.

(** A rejection through [approve_expense] stamps the approver as well. *)
Example approve_expense_rejection :
  request (approve_expense 1700100000 1
             {| ExpenseApproval.status := REJECTED;
                ExpenseApproval.notes := Some "No receipt" |} 2) sample_db
  = let r := expense_set_notes (Some "No receipt")
               (expense_set_approver 2 1700100000
                  (expense_set_status REJECTED travel_expense)) in
    (with_expenses sample_db {[ 1 := r ]}, Return r).
Proof. vm_compute. reflexivity. Qed.

(** C4. An employee who sends a status with the update of an own submitted
    expense is not refused: the status is written as sent, and neither
    approver nor approval time is recorded. *)
Theorem update_expense_employee_writes_status :
  request (update_expense 1700100000 1 (expense_status_update APPROVED) 3) sample_db
  = let r := expense_set_status APPROVED travel_expense in
    (with_expenses sample_db {[ 1 := r ]}, Return r).
Proof. vm_compute. reflexivity. Qed.

(** Every run of [create_expense] ends in an exception, before a commit. *)
Lemma create_expense_raises db now expense_in sub :
  ∃ e, request (create_expense now expense_in sub) db = (db, Raise e).
Proof.
  unfold request, create_expense, mbind at 1, Handler_bind at 1.
  rewrite run_get_current_active_user. simpl.
  destruct (users db !! sub) as [u|]; [|by eexists].
  destruct (User.is_active u); [|by eexists].
  run_handler.
  destruct (truthy_int (ExpenseCreate.client_id expense_in)); [|by eexists].
  destruct (ExpenseCreate.client_id expense_in) as [c|]; simpl;
    [destruct (clients db !! c)|]; by eexists.
Qed.

(** C7. [create_expense] stores nothing, whoever calls it and whatever the
    payload: the request leaves the database as it was and never returns
    an expense.  On the scenario of the specification it ends in the
    [InvalidRequestError] of [db.delete]. *)
Theorem create_expense_persists_nothing :
  (∀ (db : DB) (now : Z) (expense_in : ExpenseCreate.t) (sub : Z),
     (request (create_expense now expense_in sub) db).1 = db
     ∧ ∀ r, (request (create_expense now expense_in sub) db).2 ≠ Return r)
  ∧ request (create_expense 1700000000 travel_expense_create 3)
      (with_expenses sample_db ∅)
    = (with_expenses sample_db ∅, Raise InvalidRequestError).
Proof.
  split; [|by vm_compute].
  intros db now expense_in sub.
  by destruct (create_expense_raises db now expense_in sub) as [e ->].
Qed.

(** C8. [delete_expense] removes nothing: every request leaves the
    database as it was.  The admin of the sample data, whom no rule
    restricts, gets Python's [None] back and the expense is still stored. *)
Theorem delete_expense_removes_nothing :
  (∀ (db : DB) (now expense_id sub : Z),
     (request (delete_expense now expense_id sub) db).1 = db)
  ∧ request (delete_expense 1700100000 1 1) sample_db = (sample_db, Return None)
  ∧ expenses sample_db !! 1 = Some travel_expense.
Proof.
  split; [|by vm_compute].
  intros db now expense_id sub.
  unfold request, delete_expense, mbind at 1, Handler_bind at 1.
  rewrite run_get_current_active_user. simpl.
  destruct (users db !! sub) as [u|]; [|done].
  destruct (User.is_active u); [|done].
  run_handler.
  destruct (expenses db !! expense_id) as [expense|]; [|done].
  repeat case_bool_decide; done.
Qed.

(** ** Contacts *)

Lemma sample_contacts_one_primary : at_most_one_primary (contacts sample_db).
Proof.
  intros c. unfold primary_count.
  replace (map_to_list (contacts sample_db))
    with [(3, sample_contact 2 "Carol" true); (2, sample_contact 1 "Bob" false);
          (1, sample_contact 1 "Alice" true)] by (by vm_compute).
  unfold is_primary_of. simpl.
  repeat case_bool_decide; simpl; lia.
Qed.

(** C2. A contact request sent to the route of client 1 whose body names
    client 2 and sets [is_primary] is accepted.  Before it every client has
    at most one primary contact; after it client 2 has two, the stored
    contact 3 and the new contact 4, because the handler looks for the
    primary to demote among the contacts of client 1. *)
Theorem create_client_contact_second_primary :
  at_most_one_primary (contacts sample_db)
  ∧ (request (create_client_contact 1 misrouted_contact 3) sample_db).2
    = Return (4, new_contact misrouted_contact)
  ∧ primary_count
      (contacts (request (create_client_contact 1 misrouted_contact 3) sample_db).1) 2
    = 2%nat
  ∧ ¬ at_most_one_primary
        (contacts (request (create_client_contact 1 misrouted_contact 3) sample_db).1).
Proof.
  split; [apply sample_contacts_one_primary|].
  split; [by vm_compute|].
  assert (primary_count
            (contacts (request (create_client_contact 1 misrouted_contact 3) sample_db).1) 2
          = 2%nat) as Hcount by (by vm_compute).
  split; [done|].
  intros Hone. specialize (Hone 2). rewrite Hcount in Hone. lia.
Qed.

(** ** Quotations *)

(** C5. A quotation request sent to the route of client 1 whose body names
    client 2 is accepted.  Client 2 has the versions 1 and 2; the new
    quotation is stored for client 2 with version 1, the maximum over the
    (absent) quotations of client 1 plus one, and not with version 3. *)
Theorem create_client_quotation_repeats_version :
  versions_of (quotations sample_db) 2 = [2; 1]
  ∧ (request (create_client_quotation 1 misrouted_quotation 2) sample_db).2
    = Return (3, new_quotation misrouted_quotation 1)
  ∧ versions_of
      (quotations (request (create_client_quotation 1 misrouted_quotation 2) sample_db).1) 2
    = [1; 2; 1].
Proof. vm_compute. repeat split; reflexivity. Qed.

(** ** Tasks *)

(** C3. The owner of a pending task sets its [completion_percentage] to
    100 through [update_task]: the request is accepted, and the stored task
    has percentage 100, status [pending] and no [completed_at]. *)
Theorem update_task_percentage_without_status :
  request (update_task 1700200000 1 (task_update_percentage 100) 3) sample_db
  = (let r := task_set_completion_percentage (Some 100) sample_task in
     (with_tasks sample_db {[ 1 := r ]}, Return r))
  ∧ ¬ completion_consistent (task_set_completion_percentage (Some 100) sample_task).
Proof.
  split; [by vm_compute|].
  unfold completion_consistent. simpl. intros [H _]. by specialize (H eq_refl).
Qed.

(** C9. The owner of a pending task without assignee assigns it to
    themselves through [update_task]: the request is accepted, the assignee
    is stored, and the status stays [pending].  The same assignment through
    [assign_task] stores [in_progress]. *)
Theorem update_task_assignment_keeps_pending :
  request (update_task 1700200000 1 (task_update_assignee 3) 3) sample_db
  = (let r := task_set_assignee_id (Some 3) sample_task in
     (with_tasks sample_db {[ 1 := r ]}, Return r))
  ∧ Task.status (task_set_assignee_id (Some 3) sample_task) = Task.PENDING
  ∧ request (assign_task 1 3 3) sample_db
    = (let r := task_set_status Task.IN_PROGRESS
                  (task_set_assignee_id (Some 3) sample_task) in
       (with_tasks sample_db {[ 1 := r ]}, Return r)).
Proof. vm_compute. repeat split; reflexivity. Qed.

(** ** Onboarding and sending timestamps *)

Lemma client_setattrs_onboarded_at u c r :
  client_setattrs u c = Some r → Client.onboarded_at r = Client.onboarded_at c.
Proof.
  unfold client_setattrs. intros H.
  destruct (setattr_required (ClientUpdate.name u) _); simpl in H; [|done].
  destruct (setattr_required (ClientUpdate.location u) _); simpl in H; [|done].
  destruct (setattr_required (ClientUpdate.status u) _); simpl in H; [|done].
  destruct (setattr_required (ClientUpdate.service_plan u) _); simpl in H; [|done].
  by simplify_eq.
Qed.

Lemma quotation_setattrs_sent_at u q r :
  quotation_setattrs u q = Some r → Quotation.sent_at r = Quotation.sent_at q.
Proof.
  unfold quotation_setattrs. intros H.
  destruct (setattr_required (QuotationUpdate.html_content u) _); simpl in H; [|done].
  destruct (setattr_required (QuotationUpdate.status u) _); simpl in H; [|done].
  by simplify_eq.
Qed.

(** An update of a client that returns has stored the row it returns, and
    that row comes from the stored one by the stamp and the loop. *)
Lemma update_client_returns db db' now client_id client_in sub c r :
  clients db !! client_id = Some c →
  request (update_client now client_id client_in sub) db = (db', Return r) →
  db' = with_clients db (<[client_id := r]> (clients db))
  ∧ client_setattrs client_in
      (if bool_decide (attr (ClientUpdate.status client_in) = Some Client.ACTIVE)
          && bool_decide (Client.status c ≠ Client.ACTIVE)
       then client_set_onboarded_at now c else c) = Some r.
Proof.
  intros Hc.
  unfold request, update_client, mbind at 1, Handler_bind at 1.
  rewrite run_get_current_manager_or_admin_user. simpl.
  destruct (users db !! sub) as [u|]; [|done].
  destruct (User.is_active u); [|done].
  case_bool_decide; [|done].
  unfold validate. destruct (bool_decide (client_id > 0)); simpl; [|done].
  run_handler. rewrite Hc.
  destruct (client_setattrs _ _) as [r'|]; [|done].
  simpl. by intros [= <- <-].
Qed.

Lemma update_client_quotation_returns db db' now client_id quotation_id quotation_in sub q r :
  quotations db !! quotation_id = Some q →
  request (update_client_quotation now client_id quotation_id quotation_in sub) db
    = (db', Return r) →
  db' = with_quotations db (<[quotation_id := r]> (quotations db))
  ∧ quotation_setattrs quotation_in
      (if bool_decide (attr (QuotationUpdate.status quotation_in) = Some Quotation.SENT)
          && bool_decide (Quotation.status q ≠ Quotation.SENT)
       then quotation_set_sent_at now q else q) = Some r.
Proof.
  intros Hq.
  unfold request, update_client_quotation, mbind at 1, Handler_bind at 1.
  rewrite run_get_current_manager_or_admin_user. simpl.
  destruct (users db !! sub) as [u|]; [|done].
  destruct (User.is_active u); [|done].
  case_bool_decide; [|done].
  unfold validate. destruct (bool_decide (client_id > 0)); simpl; [|done].
  run_handler. destruct (bool_decide (quotation_id > 0)); simpl; [|done].
  unfold child_of. rewrite Hq.
  destruct (bool_decide (Quotation.client_id q = client_id)); simpl; [|done].
  destruct (quotation_setattrs _ _) as [r'|]; [|done].
  simpl. by intros [= <- <-].
Qed.

(** C6, as the code has it, in two statements that do not depend on each
    other.  An update of a client that returns leaves [onboarded_at] as it
    was, unless the payload asks for [active] and the stored status is
    another one: then [onboarded_at] is the time of the request, whether it
    was set before or not.  An update of a quotation that returns treats
    [sent_at] in the same way for the status [sent]. *)
Theorem update_stamps_on_status_change :
  (∀ (db db' : DB) (now client_id sub : Z) (client_in : ClientUpdate.t)
     (c r : Client.t),
     clients db !! client_id = Some c →
     request (update_client now client_id client_in sub) db = (db', Return r) →
     clients db' !! client_id = Some r
     ∧ Client.onboarded_at r =
         if bool_decide (attr (ClientUpdate.status client_in) = Some Client.ACTIVE)
            && bool_decide (Client.status c ≠ Client.ACTIVE)
         then Some now else Client.onboarded_at c)
  ∧ (∀ (db db' : DB) (now client_id quotation_id sub : Z)
       (quotation_in : QuotationUpdate.t) (q r : Quotation.t),
       quotations db !! quotation_id = Some q →
       request (update_client_quotation now client_id quotation_id quotation_in sub) db
         = (db', Return r) →
       quotations db' !! quotation_id = Some r
       ∧ Quotation.sent_at r =
           if bool_decide (attr (QuotationUpdate.status quotation_in) = Some Quotation.SENT)
              && bool_decide (Quotation.status q ≠ Quotation.SENT)
           then Some now else Quotation.sent_at q).
Proof.
  split.
  - intros db db' now client_id sub client_in c r Hc Hr.
    destruct (update_client_returns _ _ _ _ _ _ _ _ Hc Hr) as [-> Hset].
    split; [by simpl; rewrite lookup_insert_eq|].
    rewrite (client_setattrs_onboarded_at _ _ _ Hset).
    by destruct (bool_decide (attr (ClientUpdate.status client_in) = _) && _).
  - intros db db' now client_id quotation_id sub quotation_in q r Hq Hr.
    destruct (update_client_quotation_returns _ _ _ _ _ _ _ _ _ Hq Hr) as [-> Hset].
    split; [by simpl; rewrite lookup_insert_eq|].
    rewrite (quotation_setattrs_sent_at _ _ _ Hset).
    by destruct (bool_decide (attr (QuotationUpdate.status quotation_in) = _) && _).
Qed.

Lemma update_stamps_on_status_change_witness :
  let r1 := {| Client.name := "Lakeview School"; Client.location := "Musanze";
               Client.status := Client.ACTIVE; Client.service_plan := Client.PREMIUM;
               Client.notes := None; Client.onboarded_at := Some 1650000000 |} in
  let r2 := {| Quotation.client_id := 2; Quotation.version := 1;
               Quotation.html_content := "<p>Fibre 50</p>";
               Quotation.status := Quotation.ACCEPTED;
               Quotation.sent_at := Some 1640000000 |} in
  (clients (with_clients sample_db (<[2 := r1]> (clients sample_db))) !! 2 = Some r1
   ∧ Client.onboarded_at r1 = Some 1650000000)
  ∧ (quotations (with_quotations sample_db (<[1 := r2]> (quotations sample_db))) !! 1
     = Some r2
     ∧ Quotation.sent_at r2 = Some 1640000000).
Proof.
  intros r1 r2. split.
  - exact (proj1 update_stamps_on_status_change sample_db
             (with_clients sample_db (<[2 := r1]> (clients sample_db)))
             1700200000 2 1 (client_status_update Client.ACTIVE) _ r1
             ltac:(vm_compute; reflexivity) ltac:(vm_compute; reflexivity)).
  - exact (proj2 update_stamps_on_status_change sample_db
             (with_quotations sample_db (<[1 := r2]> (quotations sample_db)))
             1700200000 2 1 1 (quotation_status_update Quotation.ACCEPTED) _ r2
             ltac:(vm_compute; reflexivity) ltac:(vm_compute; reflexivity)).
Defined.

(** C6, as the specification has it, fails.  Client 1 was onboarded at
    1600000000 and is inactive; the update that makes it active again
    replaces [onboarded_at] by the time of the request.  Quotation 2 was
    sent at 1645000000 and is accepted; the update that sets it to [sent]
    again replaces [sent_at]. *)
Lemma update_restamps_set_timestamps :
  (Client.onboarded_at <$> clients sample_db !! 1) = Some (Some 1600000000)
  ∧ (Client.onboarded_at <$>
       clients (request (update_client 1700200000 1 (client_status_update Client.ACTIVE) 2)
                  sample_db).1 !! 1)
    = Some (Some 1700200000)
  ∧ (Quotation.sent_at <$> quotations sample_db !! 2) = Some (Some 1645000000)
  ∧ (Quotation.sent_at <$>
       quotations (request (update_client_quotation 1700200000 2 2
                              (quotation_status_update Quotation.SENT) 2)
                     sample_db).1 !! 2)
    = Some (Some 1700200000).
Proof. vm_compute. repeat split; reflexivity. Qed.

(** ** What the dedicated task handlers keep *)

(** After [complete_task] the percentage is 100 exactly when the status is
    [completed], whatever the task looked like before. *)
Lemma complete_task_consistent db db' now task_id completion_percentage sub r :
  request (complete_task now task_id completion_percentage sub) db = (db', Return r) →
  tasks db' !! task_id = Some r ∧ completion_consistent r.
Proof.
  unfold request, complete_task, mbind at 1, Handler_bind at 1.
  rewrite run_get_current_active_user. simpl.
  destruct (users db !! sub) as [u|]; [|done].
  destruct (User.is_active u); [|done].
  unfold validate. run_handler.
  destruct (bool_decide (task_id > 0)); simpl; [|done].
  destruct (bool_decide (0 ≤ completion_percentage ≤ 100)%Z) eqn:Hrange; simpl; [|done].
  apply bool_decide_eq_true in Hrange.
  destruct (tasks db !! task_id) as [t|]; [|done].
  destruct (employee_not_on_task _ _); simpl; [done|].
  intros [= <- <-]. split; [by simpl; rewrite lookup_insert_eq|].
  unfold completion_consistent.
  case_bool_decide as Hp; simpl.
  - by subst.
  - case_bool_decide as Hst; simpl.
    + rewrite bool_decide_true by lia. simpl. split; [|done]. congruence.
    + split; [congruence|done].
Qed.

(** [assign_task] moves a pending task to [in_progress] with the
    assignment. *)
Lemma assign_task_advances_pending db db' task_id assignee_id sub t r :
  tasks db !! task_id = Some t → Task.status t = Task.PENDING →
  request (assign_task task_id assignee_id sub) db = (db', Return r) →
  tasks db' !! task_id = Some r
  ∧ Task.assignee_id r = Some assignee_id ∧ Task.status r = Task.IN_PROGRESS.
Proof.
  intros Ht Hst.
  unfold request, assign_task, mbind at 1, Handler_bind at 1.
  rewrite run_get_current_active_user. simpl.
  destruct (users db !! sub) as [u|]; [|done].
  destruct (User.is_active u); [|done].
  unfold validate. run_handler.
  destruct (bool_decide (task_id > 0)); simpl; [|done].
  destruct (bool_decide (assignee_id > 0)); simpl; [|done].
  rewrite Ht.
  destruct (bool_decide (User.role u = "employee") && bool_decide (Task.owner_id t ≠ sub));
    simpl; [done|].
  destruct (bool_decide (User.role u = "employee") && bool_decide (assignee_id ≠ sub));
    simpl; [done|].
  destruct (users db !! assignee_id); simpl; [|done].
  rewrite Hst. simpl.
  intros [= <- <-]. by simpl; rewrite lookup_insert_eq.
Qed.


(** ** The status matrix of [update_expense] *)

Lemma expense_setattrs_status u e r s :
  ExpenseUpdate.status u = Value s →
  expense_setattrs u e = Some r → Expense.status r = s.
Proof.
  unfold expense_setattrs. intros Hs H. rewrite Hs in H.
  destruct (setattr_required (ExpenseUpdate.description u) _); simpl in H; [|done].
  destruct (setattr_required (ExpenseUpdate.amount u) _); simpl in H; [|done].
  destruct (setattr_required (ExpenseUpdate.date u) _); simpl in H; [|done].
  destruct (setattr_required (ExpenseUpdate.category u) _); simpl in H; [|done].
  by simplify_eq.
Qed.

(** For the roles the handler checks, an update that carries a status and
    returns has stored that status, and respects the matrix: a manager
    wrote [approved] or [rejected], a finance user wrote [reimbursed]. *)
Lemma update_expense_status_matrix db db' now expense_id expense_in sub u r s :
  users db !! sub = Some u →
  ExpenseUpdate.status expense_in = Value s →
  request (update_expense now expense_id expense_in sub) db = (db', Return r) →
  expenses db' !! expense_id = Some r
  ∧ Expense.status r = s
  ∧ (User.role u = "manager" → s = APPROVED ∨ s = REJECTED)
  ∧ (User.role u = "finance" → s = REIMBURSED).
Proof.
  intros Hu Hs.
  unfold request, update_expense, mbind at 1, Handler_bind at 1.
  rewrite run_get_current_active_user. simpl. rewrite Hu.
  destruct (User.is_active u); [|done].
  run_handler.
  destruct (expenses db !! expense_id) as [e|]; [|done].
  destruct (bool_decide (User.role u = "employee") && _); simpl; [done|].
  destruct (bool_decide (User.role u = "employee") && _); simpl; [done|].
  rewrite Hs. simpl.
  destruct (bool_decide (User.role u ∈ ["admin"; "manager"; "finance"])) eqn:Hin,
    (bool_decide (User.role u = "finance")) eqn:Hfin,
    (bool_decide (User.role u = "manager")) eqn:Hman,
    (bool_decide (Some s ≠ Some REIMBURSED)) eqn:Hnre,
    (bool_decide (Some s ∈ [Some APPROVED; Some REJECTED])) eqn:Hap,
    (bool_decide (Some s = Some APPROVED)),
    (bool_decide (Some s = Some REIMBURSED)); simpl; try done;
    (destruct (expense_setattrs _ _) as [r'|] eqn:Hset; simpl; [|done]);
    intros [= <- <-];
    (split; [by simpl; rewrite lookup_insert_eq|]);
    (split; [by eapply expense_setattrs_status|]);
    repeat match goal with
           | H : bool_decide _ = true |- _ => apply bool_decide_eq_true in H
           | H : bool_decide _ = false |- _ => apply bool_decide_eq_false in H
           end;
    rewrite ?elem_of_cons, ?elem_of_nil in Hin;
    rewrite ?elem_of_cons, ?elem_of_nil in Hap;
    destruct (decide (s = REIMBURSED)); intuition congruence.
Qed.

(** For an employee the status block is skipped: on an own submitted
    expense any status of the payload is written, with no stamp. *)
Lemma update_expense_employee_status db now expense_id sub u e s :
  users db !! sub = Some u → User.is_active u = true →
  User.role u = "employee" →
  expenses db !! expense_id = Some e →
  Expense.submitter_id e = sub → Expense.status e = SUBMITTED →
  request (update_expense now expense_id (expense_status_update s) sub) db
  = (with_expenses db (<[expense_id := expense_set_status s e]> (expenses db)),
     Return (expense_set_status s e)).
Proof.
  intros Hu Ha Hrole He Hsub Hst.
  unfold request, update_expense, mbind at 1, Handler_bind at 1.
  rewrite run_get_current_active_user. simpl. rewrite Hu, Ha.
  run_handler. rewrite He, Hrole, Hsub, Hst. simpl.
  rewrite (bool_decide_false (sub ≠ sub)) by (by intros []).
  done.
Qed.

(** ** Versions of quotations when route and payload name the same client *)

Lemma foldr_max_bound {A} (f : A → Z) (z : Z) (l : list A) (x : A) :
  x ∈ l → (f x ≤ foldr (λ r, Z.max (f r)) z l)%Z.
Proof.
  induction l as [|b l IH]; simpl.
  - by intros ?%elem_of_nil.
  - rewrite elem_of_cons. intros [->|Hx]; [lia|]. specialize (IH Hx). lia.
Qed.

(** The key of a new row is above every key of the table. *)
Lemma next_id_above {A} (table : gmap Z A) k :
  is_Some (table !! k) → (k < next_id table)%Z.
Proof.
  intros [x Hx]. apply elem_of_map_to_list in Hx. unfold next_id.
  pose proof (foldr_max_bound (λ row : Z * A, row.1) 0 _ _ Hx). simpl in *. lia.
Qed.

Lemma next_id_fresh {A} (table : gmap Z A) : table !! next_id table = None.
Proof.
  destruct (table !! next_id table) as [x|] eqn:Hx; [|done].
  pose proof (next_id_above table (next_id table) (mk_is_Some _ _ Hx)). lia.
Qed.

Lemma foldr_max_ge {A} (f : A → Z) (a : A) (l : list A) (x : A) :
  x = a ∨ x ∈ l → (f x ≤ foldr (λ r, Z.max (f r)) (f a) l)%Z.
Proof.
  induction l as [|b l IH]; simpl.
  - intros [->|Hx]; [lia|by apply elem_of_nil in Hx].
  - rewrite elem_of_cons. intros [->|[->|Hx]]; [|lia|]; etrans; [apply IH; eauto|lia|apply IH; eauto|lia].
Qed.

(** The maximum that the handler reads bounds every version of the client. *)
Lemma max_version_bounds (table : gmap Z Quotation.t) client_id v :
  v ∈ versions_of table client_id →
  ∃ m, max_version client_id table = Some m ∧ (v ≤ m)%Z.
Proof.
  unfold versions_of, max_version.
  destruct (List.filter _ (map_to_list table)) as [|row rows]; simpl.
  - by intros ?%elem_of_nil.
  - intros Hv. eexists; split; [done|].
    apply elem_of_cons in Hv as [->|Hv].
    + apply (foldr_max_ge (λ r, Quotation.version r.2) row rows row). by left.
    + apply list_elem_of_fmap in Hv as (x & -> & Hx).
      apply (foldr_max_ge (λ r, Quotation.version r.2) row rows x). by right.
Qed.

(** When the payload names the client of the route, the quotation that
    [create_client_quotation] stores is a new row of that client whose
    version is the maximum of the client's versions plus one (1 for the
    first quotation), above every version the client has. *)
Lemma create_client_quotation_version db db' client_id quotation_in sub quotation_id q :
  QuotationCreate.client_id quotation_in = client_id →
  request (create_client_quotation client_id quotation_in sub) db
    = (db', Return (quotation_id, q)) →
  quotations db !! quotation_id = None
  ∧ quotations db' = <[quotation_id := q]> (quotations db)
  ∧ Quotation.client_id q = client_id
  ∧ Quotation.version q = default 0 (max_version client_id (quotations db)) + 1
  ∧ (versions_of (quotations db) client_id = [] → Quotation.version q = 1)
  ∧ (∀ v, v ∈ versions_of (quotations db) client_id → (v < Quotation.version q)%Z).
Proof.
  intros Hcid.
  unfold request, create_client_quotation, mbind at 1, Handler_bind at 1.
  rewrite run_get_current_manager_or_admin_user. simpl.
  destruct (users db !! sub) as [u|]; [|done].
  destruct (User.is_active u); [|done].
  destruct (bool_decide (User.role u ∈ ["admin"; "manager"])); [|done].
  unfold validate. run_handler.
  destruct (bool_decide (client_id > 0)); simpl; [|done].
  destruct (clients db !! client_id); simpl; [|done].
  intros [= <- <- <-]. simpl.
  split; [apply next_id_fresh|]. split; [done|]. split; [done|]. split; [done|].
  split.
  - unfold versions_of, max_version.
    by destruct (List.filter _ (map_to_list (quotations db))).
  - intros v Hv. destruct (max_version_bounds _ _ _ Hv) as (m & -> & Hm). simpl. lia.
Qed.

(** ** Primary contacts when route and payload name the same client *)
















(** The scenario of the specification: client 1 has two contacts, the
    first of them primary; a third one created as primary through the
    route of client 1 is then the only primary contact of client 1. *)
Example create_client_contact_scenario :
  let contact_in :=
    {| ContactCreate.name := "Erin"; ContactCreate.role := None;
       ContactCreate.department := None; ContactCreate.email := "erin@example.org";
       ContactCreate.phone := None; ContactCreate.preferred_contact := Some "email";
       ContactCreate.is_primary := true; ContactCreate.client_id := 1 |} in
  let db' := (request (create_client_contact 1 contact_in 3) sample_db).1 in
  (Contact.is_primary <$> contacts db' !! 1) = Some (Some false)
  ∧ (Contact.is_primary <$> contacts db' !! 2) = Some (Some false)
  ∧ (Contact.is_primary <$> contacts db' !! 4) = Some (Some true)
  ∧ primary_count (contacts db') 1 = 1%nat.
Proof. vm_compute. repeat split; reflexivity. Qed.

(** * Further properties of the handlers *)

Lemma complete_task_consistent_witness :
  let r := task_set_completion_percentage (Some 40) sample_task in
  tasks (with_tasks sample_db (<[1 := r]> (tasks sample_db))) !! 1 = Some r
  ∧ completion_consistent r.
Proof.
  exact (complete_task_consistent sample_db _ 1700200000 1 40 3 _
           (eq_refl : request (complete_task 1700200000 1 40 3) sample_db = (_, _))).
Defined.

Lemma assign_task_advances_pending_witness :
  let r := task_set_status Task.IN_PROGRESS (task_set_assignee_id (Some 5) sample_task) in
  tasks (with_tasks sample_db (<[1 := r]> (tasks sample_db))) !! 1 = Some r
  ∧ Task.assignee_id r = Some 5 ∧ Task.status r = Task.IN_PROGRESS.
Proof.
  exact (assign_task_advances_pending sample_db _ 1 5 2 sample_task _ eq_refl eq_refl
           (eq_refl : request (assign_task 1 5 2) sample_db = (_, _))).
Defined.

Lemma update_expense_status_matrix_witness :
  let r := expense_set_approver 2 1700100000
             (expense_set_status APPROVED travel_expense) in
  expenses (with_expenses sample_db (<[1 := r]> (expenses sample_db))) !! 1 = Some r
  ∧ Expense.status r = APPROVED
  ∧ ("manager" = "manager" → APPROVED = APPROVED ∨ APPROVED = REJECTED)
  ∧ ("manager" = "finance" → APPROVED = REIMBURSED).
Proof.
  exact (update_expense_status_matrix sample_db _
           1700100000 1 (expense_status_update APPROVED) 2
           {| User.role := "manager"; User.is_active := true |}
           _ APPROVED eq_refl eq_refl
           (eq_refl : request (update_expense 1700100000 1
                                 (expense_status_update APPROVED) 2) sample_db
                      = (_, _))).
Defined.

Lemma create_client_quotation_version_witness :
  let q := new_quotation
             {| QuotationCreate.html_content := "<p>Fibre 200</p>";
                QuotationCreate.status := Quotation.DRAFT;
                QuotationCreate.client_id := 2 |} 3 in
  quotations sample_db !! 3 = None
  ∧ quotations (with_quotations sample_db (<[3 := q]> (quotations sample_db)))
    = <[3 := q]> (quotations sample_db)
  ∧ Quotation.client_id q = 2
  ∧ Quotation.version q = default 0 (max_version 2 (quotations sample_db)) + 1
  ∧ (versions_of (quotations sample_db) 2 = [] → Quotation.version q = 1)
  ∧ (∀ v, v ∈ versions_of (quotations sample_db) 2 → (v < Quotation.version q)%Z).
Proof.
  exact (create_client_quotation_version sample_db _ 2
           {| QuotationCreate.html_content := "<p>Fibre 200</p>";
              QuotationCreate.status := Quotation.DRAFT;
              QuotationCreate.client_id := 2 |} 2 3 _ eq_refl
           (eq_refl : request (create_client_quotation 2 _ 2) sample_db
                      = (_, Return (_, _)))).
Defined.



(** ** Expenses: approval, direct updates, reading *)

(** An expense that is not [submitted] is decided no more: a manager or
    admin who approves or rejects it gets 400, whatever the decision, and
    nothing is written. *)
Lemma approve_expense_rejects_non_submitted db now expense_id approval sub u e :
  users db !! sub = Some u → User.is_active u = true →
  User.role u ∈ ["admin"; "manager"] →
  expenses db !! expense_id = Some e →
  Expense.status e ≠ SUBMITTED →
  ∃ detail, request (approve_expense now expense_id approval sub) db
            = (db, Raise (HTTPException 400 detail)).
Proof.
  intros Hu Ha Hr He Hst.
  unfold request, approve_expense, mbind at 1, Handler_bind at 1.
  rewrite run_get_current_manager_or_admin_user. simpl.
  rewrite Hu, Ha, (bool_decide_true _ Hr).
  run_handler. rewrite He, (bool_decide_true _ Hst). by eexists.
Qed.

Lemma approve_expense_rejects_non_submitted_witness :
  ∃ detail,
    request (approve_expense 1700100000 1
               {| ExpenseApproval.status := APPROVED; ExpenseApproval.notes := None |} 2)
      (with_expenses sample_db {[ 1 := expense_set_status REJECTED travel_expense ]})
    = (with_expenses sample_db {[ 1 := expense_set_status REJECTED travel_expense ]},
       Raise (HTTPException 400 detail)).
Proof.
  apply (approve_expense_rejects_non_submitted _ _ _ _ _
           {| User.role := "manager"; User.is_active := true |}
           (expense_set_status REJECTED travel_expense));
    [reflexivity | reflexivity | set_solver | reflexivity | discriminate].
Defined.

(** The notes of an approved or rejected expense, as the database holds
    them after [approve_expense] has returned: unchanged when the request
    carries no notes, the notes of the request when the expense had none,
    and otherwise the old notes, an empty line, and the new notes after
    the words "Approval notes: ". *)
Lemma approve_expense_notes db db' now expense_id approval sub e r :
  expenses db !! expense_id = Some e →
  request (approve_expense now expense_id approval sub) db = (db', Return r) →
  expenses db' !! expense_id = Some r
  ∧ Expense.notes r =
      match ExpenseApproval.notes approval, Expense.notes e with
      | None, old | Some "", old => old
      | Some new, None | Some new, Some "" => Some new
      | Some new, Some old =>
          Some (String.append old
                  (String.append (String "010" (String "010" "Approval notes: ")) new))
      end.
Proof.
  intros He.
  unfold request, approve_expense, mbind at 1, Handler_bind at 1.
  rewrite run_get_current_manager_or_admin_user. simpl.
  destruct (users db !! sub) as [u|]; [|done].
  destruct (User.is_active u); [|done].
  destruct (bool_decide (User.role u ∈ ["admin"; "manager"])); [|done].
  run_handler. rewrite He.
  destruct (bool_decide (Expense.status e ≠ SUBMITTED)); simpl; [done|].
  intros [= <- <-]. simpl. split; [by rewrite lookup_insert_eq|].
  destruct (ExpenseApproval.notes approval) as [[|a new]|]; simpl; [done| |done].
  by destruct (Expense.notes e) as [[|b old]|].
Qed.

Lemma approve_expense_notes_witness :
  let r := expense_set_notes
             (Some (String.append "Taxi"
                      (String "010" (String "010" "Approval notes: No receipt"))))
             (expense_set_approver 2 1700100000
                (expense_set_status REJECTED
                   (expense_set_notes (Some "Taxi") travel_expense))) in
  expenses (with_expenses noted_db (<[1 := r]> (expenses noted_db))) !! 1 = Some r
  ∧ Expense.notes r
    = Some (String.append "Taxi"
              (String "010" (String "010" "Approval notes: No receipt"))).
Proof.
  exact (approve_expense_notes noted_db _ 1700100000 1 rejection 2
           (expense_set_notes (Some "Taxi") travel_expense) _ eq_refl
           (eq_refl : request (approve_expense 1700100000 1 rejection 2) noted_db
                      = (_, Return _))).
Defined.

Lemma expense_setattrs_keeps u e r :
  expense_setattrs u e = Some r →
  Expense.submitter_id r = Expense.submitter_id e
  ∧ Expense.created_at r = Expense.created_at e
  ∧ Expense.approver_id r = Expense.approver_id e
  ∧ Expense.approved_at r = Expense.approved_at e
  ∧ Expense.reimburser_id r = Expense.reimburser_id e
  ∧ Expense.reimbursed_at r = Expense.reimbursed_at e.
Proof.
  unfold expense_setattrs. intros H.
  destruct (setattr_required (ExpenseUpdate.description u) _); simpl in H; [|done].
  destruct (setattr_required (ExpenseUpdate.amount u) _); simpl in H; [|done].
  destruct (setattr_required (ExpenseUpdate.date u) _); simpl in H; [|done].
  destruct (setattr_required (ExpenseUpdate.category u) _); simpl in H; [|done].
  destruct (setattr_required (ExpenseUpdate.status u) _); simpl in H; [|done].
  by simplify_eq.
Qed.

(** A direct update by an admin, a manager or a finance user that carries
    a status and returns: [approved] records the caller and the time as
    approver, [reimbursed] as reimburser, and what is not recorded is left
    as stored.  The stored status is not looked at. *)
Lemma update_expense_stamps db db' now expense_id expense_in sub u e r s :
  users db !! sub = Some u →
  User.role u ∈ ["admin"; "manager"; "finance"] →
  expenses db !! expense_id = Some e →
  ExpenseUpdate.status expense_in = Value s →
  request (update_expense now expense_id expense_in sub) db = (db', Return r) →
  expenses db' !! expense_id = Some r
  ∧ Expense.status r = s
  ∧ (Expense.approver_id r, Expense.approved_at r)
    = (if bool_decide (s = APPROVED) then (Some sub, Some now)
       else (Expense.approver_id e, Expense.approved_at e))
  ∧ (Expense.reimburser_id r, Expense.reimbursed_at r)
    = (if bool_decide (s = REIMBURSED) then (Some sub, Some now)
       else (Expense.reimburser_id e, Expense.reimbursed_at e)).
Proof.
  intros Hu Hin He Hs.
  unfold request, update_expense, mbind at 1, Handler_bind at 1.
  rewrite run_get_current_active_user. simpl. rewrite Hu.
  destruct (User.is_active u); [|done].
  run_handler. rewrite He.
  destruct (bool_decide (User.role u = "employee") && _); simpl; [done|].
  destruct (bool_decide (User.role u = "employee") && _); simpl; [done|].
  rewrite Hs, (bool_decide_true _ Hin). simpl.
  destruct (bool_decide (User.role u = "finance") && _); simpl; [done|].
  destruct (bool_decide (User.role u = "manager") && _); simpl; [done|].
  destruct s; simpl;
    (destruct (expense_setattrs _ _) as [r'|] eqn:Hset; simpl; [|done]);
    intros [= <- <-];
    pose proof (expense_setattrs_status _ _ _ _ Hs Hset) as Hst;
    destruct (expense_setattrs_keeps _ _ _ Hset) as (_ & _ & Ha1 & Ha2 & Hr1 & Hr2);
    (split; [by simpl; rewrite lookup_insert_eq|]); (split; [done|]);
    by rewrite Ha1, Ha2, Hr1, Hr2.
Qed.

Lemma update_expense_stamps_witness :
  let r := expense_set_status REIMBURSED
             (expense_set_reimburser 4 1700100000 travel_expense) in
  expenses (with_expenses sample_db (<[1 := r]> (expenses sample_db))) !! 1 = Some r
  ∧ Expense.status r = REIMBURSED
  ∧ (Expense.approver_id r, Expense.approved_at r) = (None, None)
  ∧ (Expense.reimburser_id r, Expense.reimbursed_at r) = (Some 4, Some 1700100000).
Proof.
  exact (update_expense_stamps sample_db _ 1700100000 1
           (expense_status_update REIMBURSED) 4
           {| User.role := "finance"; User.is_active := true |} travel_expense _ REIMBURSED
           eq_refl ltac:(set_solver) eq_refl eq_refl
           (eq_refl : request (update_expense 1700100000 1
                                 (expense_status_update REIMBURSED) 4) sample_db
                      = (_, Return _))).
Defined.

(** An employee gets 403 from [update_expense] for an expense of somebody
    else, and for an own expense that is no longer [submitted]; nothing is
    written. *)
Lemma update_expense_employee_gates db now expense_id expense_in sub u e :
  users db !! sub = Some u → User.is_active u = true →
  User.role u = "employee" →
  expenses db !! expense_id = Some e →
  Expense.submitter_id e ≠ sub ∨ Expense.status e ≠ SUBMITTED →
  ∃ detail, request (update_expense now expense_id expense_in sub) db
            = (db, Raise (HTTPException 403 detail)).
Proof.
  intros Hu Ha Hrole He Hcase.
  unfold request, update_expense, mbind at 1, Handler_bind at 1.
  rewrite run_get_current_active_user. simpl. rewrite Hu, Ha.
  run_handler. rewrite He, Hrole. simpl.
  destruct (bool_decide (Expense.submitter_id e ≠ sub)) eqn:Hsub; simpl; [by eexists|].
  apply bool_decide_eq_false in Hsub.
  destruct Hcase as [?|Hst]; [done|].
  rewrite (bool_decide_true _ Hst). by eexists.
Qed.

Lemma update_expense_employee_gates_witness :
  ∃ detail, request (update_expense 1700100000 1 (expense_status_update APPROVED) 5)
              sample_db
            = (sample_db, Raise (HTTPException 403 detail)).
Proof.
  apply (update_expense_employee_gates sample_db 1700100000 1 _ 5
           {| User.role := "employee"; User.is_active := true |} travel_expense);
    [reflexivity | reflexivity | reflexivity | reflexivity | left; discriminate].
Defined.



(** When [approve_expense], [reimburse_expense] or [update_expense]
    raises, it has written nothing: every [HTTPException] is raised before
    the commit, and a commit that meets NULL in a required column stores
    none of the assignments.  This is about the exceptions of the handler.
    An error in the serialisation of the row that a handler has returned
    comes after its commit and is no part of the statement. *)
Lemma expense_failures_write_nothing db db' now expense_id sub exn :
  (∀ approval, request (approve_expense now expense_id approval sub) db = (db', Raise exn) →
               db' = db)
  ∧ (request (reimburse_expense now expense_id sub) db = (db', Raise exn) → db' = db)
  ∧ (∀ expense_in,
       request (update_expense now expense_id expense_in sub) db = (db', Raise exn) →
       db' = db).
Proof.
  split; [|split].
  - intros approval.
    unfold request, approve_expense, mbind at 1, Handler_bind at 1.
    rewrite run_get_current_manager_or_admin_user. simpl.
    destruct (users db !! sub) as [u|]; [|by intros [= <- _]].
    destruct (User.is_active u); [|by intros [= <- _]].
    destruct (bool_decide (User.role u ∈ ["admin"; "manager"])); [|by intros [= <- _]].
    run_handler.
    destruct (expenses db !! expense_id) as [e|]; [|by intros [= <- _]].
    destruct (bool_decide (Expense.status e ≠ SUBMITTED)); simpl; [by intros [= <- _]|done].
  - rewrite run_reimburse_expense.
    destruct (users db !! sub) as [u|]; [|by intros [= <- _]].
    destruct (User.is_active u); [|by intros [= <- _]].
    destruct (bool_decide (User.role u ∈ ["admin"; "finance"])); [|by intros [= <- _]].
    destruct (expenses db !! expense_id) as [e|]; [|by intros [= <- _]].
    destruct (bool_decide (Expense.status e ≠ APPROVED)); simpl; [by intros [= <- _]|done].
  - intros expense_in.
    unfold request, update_expense, mbind at 1, Handler_bind at 1.
    rewrite run_get_current_active_user. simpl.
    destruct (users db !! sub) as [u|]; [|by intros [= <- _]].
    destruct (User.is_active u); [|by intros [= <- _]].
    run_handler.
    destruct (expenses db !! expense_id) as [e|]; [|by intros [= <- _]].
    destruct (bool_decide (User.role u = "employee") && _); simpl; [by intros [= <- _]|].
    destruct (bool_decide (User.role u = "employee") && _); simpl; [by intros [= <- _]|].
    destruct (is_set (ExpenseUpdate.status expense_in) && _); simpl.
    + destruct (bool_decide (User.role u = "finance") && _); simpl; [by intros [= <- _]|].
      destruct (bool_decide (User.role u = "manager") && _); simpl; [by intros [= <- _]|].
      repeat case_bool_decide; simpl;
        (destruct (expense_setattrs _ _); simpl; [done|by intros [= <- _]]).
    + destruct (expense_setattrs _ _); simpl; [done|by intros [= <- _]].
Qed.

Lemma expense_failures_write_nothing_witness :
  (request (reimburse_expense 1700100000 1 4) sample_db).1 = sample_db.
Proof.
  exact (proj1 (proj2 (expense_failures_write_nothing sample_db
                         (request (reimburse_expense 1700100000 1 4) sample_db).1
                         1700100000 1 4
                         (HTTPException 400 "Can only reimburse approved expenses")))
           eq_refl).
Defined.

(** ** Tasks: deleting, creating, reading *)

Lemma run_delete_task db task_id sub u t :
  users db !! sub = Some u → User.is_active u = true →
  task_id > 0 → tasks db !! task_id = Some t →
  request (delete_task task_id sub) db
  = if bool_decide (User.role u = "employee") && bool_decide (Task.owner_id t ≠ sub)
    then (db, Raise (HTTPException 403 "You don't have permission to delete this task"))
    else (with_tasks db (delete task_id (tasks db)), Return t).
Proof.
  intros Hu Ha Hid Ht.
  unfold request, delete_task, mbind at 1, Handler_bind at 1.
  rewrite run_get_current_active_user. simpl. rewrite Hu, Ha.
  unfold validate. run_handler. rewrite (bool_decide_true _ Hid). simpl. rewrite Ht.
  by destruct (bool_decide (User.role u = "employee") && _).
Qed.

(** An employee deletes a task only as its owner, being the assignee is
    not enough; every other role deletes any task.  The deletion removes
    that task and no other. *)
Lemma delete_task_effect db task_id sub u t :
  users db !! sub = Some u → User.is_active u = true →
  task_id > 0 → tasks db !! task_id = Some t →
  (User.role u = "employee" ∧ Task.owner_id t ≠ sub →
     ∃ detail, request (delete_task task_id sub) db
               = (db, Raise (HTTPException 403 detail)))
  ∧ (User.role u ≠ "employee" ∨ Task.owner_id t = sub →
     ∃ db', request (delete_task task_id sub) db = (db', Return t)
            ∧ tasks db' !! task_id = None
            ∧ ∀ j, j ≠ task_id → tasks db' !! j = tasks db !! j).
Proof.
  intros Hu Ha Hid Ht. rewrite (run_delete_task _ _ _ _ _ Hu Ha Hid Ht).
  split.
  - intros [Hr Hown].
    rewrite (bool_decide_true _ Hr), (bool_decide_true _ Hown). by eexists.
  - intros Hcase.
    assert (bool_decide (User.role u = "employee") && bool_decide (Task.owner_id t ≠ sub)
            = false) as ->.
    { apply andb_false_iff. destruct Hcase as [Hr|Ho].
      - left. by apply bool_decide_eq_false.
      - right. apply bool_decide_eq_false. by intros []. }
    eexists; split; [done|]. simpl. split.
    + apply lookup_delete_eq.
    + intros j Hj. by apply lookup_delete_ne.
Qed.

Lemma delete_task_effect_witness :
  (("employee" : string) = "employee" ∧ 3 ≠ 5 →
     ∃ detail, request (delete_task 1 5) sample_db
               = (sample_db, Raise (HTTPException 403 detail)))
  ∧ (("employee" : string) ≠ "employee" ∨ 3 = 5 →
     ∃ db', request (delete_task 1 5) sample_db = (db', Return sample_task)
            ∧ tasks db' !! 1 = None
            ∧ ∀ j, j ≠ 1 → tasks db' !! j = tasks sample_db !! j).
Proof.
  apply (delete_task_effect sample_db 1 5
           {| User.role := "employee"; User.is_active := true |} sample_task);
    [reflexivity | reflexivity | lia | reflexivity].
Defined.

(** A task that [create_task] returns is a new row, owned by the caller,
    [pending] with percentage 0 also when it comes with an assignee; the
    client and the assignee it names exist, and an employee has named
    nobody but themselves. *)
Lemma create_task_effect db db' task_in sub u task_id t :
  users db !! sub = Some u →
  request (create_task task_in sub) db = (db', Return (task_id, t)) →
  tasks db !! task_id = None
  ∧ tasks db' = <[task_id := t]> (tasks db)
  ∧ t = new_task task_in sub
  ∧ Task.owner_id t = sub ∧ Task.status t = Task.PENDING
  ∧ Task.completion_percentage t = Some 0
  ∧ (∀ c, TaskCreate.client_id task_in = Some c → c ≠ 0 → is_Some (clients db !! c))
  ∧ (∀ a, TaskCreate.assignee_id task_in = Some a → a ≠ 0 →
          is_Some (users db !! a) ∧ (User.role u = "employee" → a = sub)).
Proof.
  intros Hu.
  unfold request, create_task, mbind at 1, Handler_bind at 1.
  rewrite run_get_current_active_user. simpl. rewrite Hu.
  destruct (User.is_active u); [|done].
  run_handler.
  assert (∀ c, TaskCreate.client_id task_in = Some c → c ≠ 0 →
               truthy_int (TaskCreate.client_id task_in) = true) as Htc.
  { intros c -> Hc. simpl. by apply negb_true_iff, Z.eqb_neq. }
  assert (∀ a, TaskCreate.assignee_id task_in = Some a → a ≠ 0 →
               truthy_int (TaskCreate.assignee_id task_in) = true) as Hta.
  { intros a -> Hnz. simpl. by apply negb_true_iff, Z.eqb_neq. }
  destruct (truthy_int (TaskCreate.client_id task_in)) eqn:Hc; simpl.
  - destruct (TaskCreate.client_id task_in) as [c|] eqn:Hcid; simpl; [|done].
    destruct (clients db !! c) eqn:Hcl; simpl; [|done].
    destruct (truthy_int (TaskCreate.assignee_id task_in)) eqn:Has; simpl.
    + destruct (TaskCreate.assignee_id task_in) as [a|] eqn:Haid; simpl; [|done].
      destruct (users db !! a) eqn:Hua; simpl; [|done].
      destruct (bool_decide (User.role u = "employee")) eqn:Hrole; simpl.
      * destruct (bool_decide (Some a ≠ Some sub)) eqn:Hne; simpl; [done|].
        apply bool_decide_eq_false in Hne.
        intros [= <- <- <-]. simpl.
        repeat (split; [first [apply next_id_fresh|done]|]).
        split.
        -- intros ? [= <-] _. by rewrite Hcl.
        -- intros ? [= <-] _. rewrite Hua. split; [done|].
           intros _. destruct (decide (a = sub)); [done|]. destruct Hne. congruence.
      * apply bool_decide_eq_false in Hrole.
        intros [= <- <- <-]. simpl.
        repeat (split; [first [apply next_id_fresh|done]|]).
        split.
        -- intros ? [= <-] _. by rewrite Hcl.
        -- intros ? [= <-] _. by rewrite Hua.
    + intros [= <- <- <-]. simpl.
      repeat (split; [first [apply next_id_fresh|done]|]).
      split.
      * intros ? [= <-] _. by rewrite Hcl.
      * intros a Ha Hnz. pose proof (Hta a Ha Hnz). congruence.
  - destruct (truthy_int (TaskCreate.assignee_id task_in)) eqn:Has; simpl.
    + destruct (TaskCreate.assignee_id task_in) as [a|] eqn:Haid; simpl; [|done].
      destruct (users db !! a) eqn:Hua; simpl; [|done].
      destruct (bool_decide (User.role u = "employee")) eqn:Hrole; simpl.
      * destruct (bool_decide (Some a ≠ Some sub)) eqn:Hne; simpl; [done|].
        apply bool_decide_eq_false in Hne.
        intros [= <- <- <-]. simpl.
        repeat (split; [first [apply next_id_fresh|done]|]).
        split.
        -- intros c Hc' Hnz. pose proof (Htc c Hc' Hnz). congruence.
        -- intros ? [= <-] _. rewrite Hua. split; [done|].
           intros _. destruct (decide (a = sub)); [done|]. destruct Hne. congruence.
      * apply bool_decide_eq_false in Hrole.
        intros [= <- <- <-]. simpl.
        repeat (split; [first [apply next_id_fresh|done]|]).
        split.
        -- intros c Hc' Hnz. pose proof (Htc c Hc' Hnz). congruence.
        -- intros ? [= <-] _. by rewrite Hua.
    + intros [= <- <- <-]. simpl.
      repeat (split; [first [apply next_id_fresh|done]|]).
      split.
      * intros c Hc' Hnz. pose proof (Htc c Hc' Hnz). congruence.
      * intros a Ha Hnz. pose proof (Hta a Ha Hnz). congruence.
Qed.

Lemma create_task_effect_witness :
  let t := new_task cabling_task 3 in
  tasks sample_db !! 2 = None
  ∧ tasks (with_tasks sample_db (<[2 := t]> (tasks sample_db)))
    = <[2 := t]> (tasks sample_db)
  ∧ t = new_task cabling_task 3
  ∧ Task.owner_id t = 3 ∧ Task.status t = Task.PENDING
  ∧ Task.completion_percentage t = Some 0
  ∧ (∀ c, TaskCreate.client_id cabling_task = Some c → c ≠ 0 →
          is_Some (clients sample_db !! c))
  ∧ (∀ a, TaskCreate.assignee_id cabling_task = Some a → a ≠ 0 →
          is_Some (users sample_db !! a) ∧ (("employee" : string) = "employee" → a = 3)).
Proof.
  exact (create_task_effect sample_db _ cabling_task 3
           {| User.role := "employee"; User.is_active := true |} 2 _ eq_refl
           (eq_refl : request (create_task cabling_task 3) sample_db
                      = (_, Return (_, _)))).
Defined.



(** ** Tasks: updating, completing, assigning *)

Lemma task_setattrs_keeps u t r :
  task_setattrs u t = Some r →
  Task.owner_id r = Task.owner_id t ∧ Task.completed_at r = Task.completed_at t.
Proof.
  unfold task_setattrs. intros H.
  destruct (setattr_required (TaskUpdate.title u) _); simpl in H; [|done].
  destruct (setattr_required (TaskUpdate.priority u) _); simpl in H; [|done].
  destruct (setattr_required (TaskUpdate.status u) _); simpl in H; [|done].
  by simplify_eq.
Qed.

(** An update of a task that returns keeps the owner.  [completed_at]
    becomes the time of the request when the payload sets [completed] and
    the stored status is another one; otherwise it is left as stored, also
    when the update takes the task out of [completed]. *)
Lemma update_task_completed_at db db' now task_id task_in sub t r :
  tasks db !! task_id = Some t →
  request (update_task now task_id task_in sub) db = (db', Return r) →
  tasks db' !! task_id = Some r
  ∧ Task.owner_id r = Task.owner_id t
  ∧ Task.completed_at r =
      if bool_decide (attr (TaskUpdate.status task_in) = Some Task.COMPLETED)
         && bool_decide (Task.status t ≠ Task.COMPLETED)
      then Some now else Task.completed_at t.
Proof.
  intros Ht.
  unfold request, update_task, mbind at 1, Handler_bind at 1.
  rewrite run_get_current_active_user. simpl.
  destruct (users db !! sub) as [u|]; [|done].
  destruct (User.is_active u); [|done].
  unfold validate. run_handler.
  destruct (bool_decide (task_id > 0)); simpl; [|done].
  rewrite Ht.
  destruct (employee_not_on_task _ _); simpl; [done|].
  destruct (_ && bool_decide (attr (TaskUpdate.assignee_id task_in) ≠ Some sub));
    simpl; [done|].
  destruct (bool_decide (attr (TaskUpdate.client_id task_in) ≠ None) && _);
    simpl; [done|].
  destruct (bool_decide (attr (TaskUpdate.assignee_id task_in) ≠ None) && _);
    simpl; [done|].
  destruct (task_setattrs _ _) as [r'|] eqn:Hset; simpl; [|done].
  intros [= <- <-]. simpl. rewrite lookup_insert_eq.
  destruct (task_setattrs_keeps _ _ _ Hset) as [-> ->].
  split; [done|].
  destruct (TaskUpdate.status task_in) as [| |[]]; simpl; try done;
    by destruct (bool_decide (Task.status t ≠ Task.COMPLETED)).
Qed.

Lemma update_task_completed_at_witness :
  let r := task_set_status Task.IN_PROGRESS completed_task in
  tasks (with_tasks completed_db (<[1 := r]> (tasks completed_db))) !! 1 = Some r
  ∧ Task.owner_id r = 3
  ∧ Task.completed_at r = Some 1690000000.
Proof.
  exact (update_task_completed_at completed_db _ 1700200000 1
           (task_update_status Task.IN_PROGRESS) 3 completed_task _ eq_refl
           (eq_refl : request (update_task 1700200000 1
                                 (task_update_status Task.IN_PROGRESS) 3) completed_db
                      = (_, Return _))).
Defined.

(** What [complete_task] stores.  The row it returns is the row the table
    then holds for the task, and no other task changes.  The row has the
    owner it had and the percentage sent; with 100 the status
    [completed] and the time of the request as [completed_at], also for a
    task completed before; below 100 a completed task goes back to
    [in_progress] and loses [completed_at], and any other task keeps
    status and [completed_at]. *)
Lemma complete_task_effect db db' now task_id completion_percentage sub t r :
  tasks db !! task_id = Some t →
  request (complete_task now task_id completion_percentage sub) db = (db', Return r) →
  (0 ≤ completion_percentage ≤ 100)%Z
  ∧ tasks db' !! task_id = Some r
  ∧ (∀ j, j ≠ task_id → tasks db' !! j = tasks db !! j)
  ∧ Task.owner_id r = Task.owner_id t
  ∧ Task.completion_percentage r = Some completion_percentage
  ∧ (Task.status r, Task.completed_at r) =
      if bool_decide (completion_percentage = 100) then (Task.COMPLETED, Some now)
      else if bool_decide (Task.status t = Task.COMPLETED) then (Task.IN_PROGRESS, None)
      else (Task.status t, Task.completed_at t).
Proof.
  intros Ht.
  unfold request, complete_task, mbind at 1, Handler_bind at 1.
  rewrite run_get_current_active_user. simpl.
  destruct (users db !! sub) as [u|]; [|done].
  destruct (User.is_active u); [|done].
  unfold validate. run_handler.
  destruct (bool_decide (task_id > 0)); simpl; [|done].
  destruct (bool_decide (0 ≤ completion_percentage ≤ 100)%Z) eqn:Hrange; simpl; [|done].
  apply bool_decide_eq_true in Hrange.
  rewrite Ht.
  destruct (employee_not_on_task _ _); simpl; [done|].
  intros [= <- <-]. split; [done|]. simpl.
  split; [by rewrite lookup_insert_eq|].
  split; [intros j Hj; by rewrite lookup_insert_ne|].
  case_bool_decide as Hp; simpl; [done|].
  destruct (bool_decide (Task.status t = Task.COMPLETED)); simpl; [|done].
  rewrite bool_decide_true by lia. done.
Qed.

Lemma complete_task_effect_witness :
  let r := task_set_completed_at None
             (task_set_status Task.IN_PROGRESS
                (task_set_completion_percentage (Some 60) completed_task)) in
  (0 ≤ 60 ≤ 100)%Z
  ∧ tasks (with_tasks completed_db (<[1 := r]> (tasks completed_db))) !! 1 = Some r
  ∧ (∀ j, j ≠ 1 → tasks (with_tasks completed_db (<[1 := r]> (tasks completed_db))) !! j
                  = tasks completed_db !! j)
  ∧ Task.owner_id r = 3
  ∧ Task.completion_percentage r = Some 60
  ∧ (Task.status r, Task.completed_at r) = (Task.IN_PROGRESS, None).
Proof.
  exact (complete_task_effect completed_db _ 1700200000 1 60 3 completed_task _ eq_refl
           (eq_refl : request (complete_task 1700200000 1 60 3) completed_db
                      = (_, Return _))).
Defined.

Lemma run_assign_task db task_id assignee_id sub u t :
  users db !! sub = Some u → User.is_active u = true →
  task_id > 0 → assignee_id > 0 → tasks db !! task_id = Some t →
  request (assign_task task_id assignee_id sub) db
  = if bool_decide (User.role u = "employee") && bool_decide (Task.owner_id t ≠ sub)
    then (db, Raise (HTTPException 403 "You don't have permission to assign this task"))
    else if bool_decide (User.role u = "employee") && bool_decide (assignee_id ≠ sub)
    then (db, Raise (HTTPException 403 "You can only assign tasks to yourself"))
    else if bool_decide (users db !! assignee_id = None)
    then (db, Raise (HTTPException 404 "Assignee not found"))
    else
      let r := task_set_assignee_id (Some assignee_id) t in
      let r := if bool_decide (Task.status t = Task.PENDING)
               then task_set_status Task.IN_PROGRESS r else r in
      (with_tasks db (<[task_id := r]> (tasks db)), Return r).
Proof.
  intros Hu Ha Hid Has Ht.
  unfold request, assign_task, mbind at 1, Handler_bind at 1.
  rewrite run_get_current_active_user. simpl. rewrite Hu, Ha.
  unfold validate. run_handler.
  rewrite (bool_decide_true _ Hid). simpl. rewrite (bool_decide_true _ Has). simpl.
  rewrite Ht.
  destruct (bool_decide (User.role u = "employee") && bool_decide (Task.owner_id t ≠ sub));
    simpl; [done|].
  destruct (bool_decide (User.role u = "employee") && bool_decide (assignee_id ≠ sub));
    simpl; [done|].
  destruct (users db !! assignee_id); simpl; [|done].
  by destruct (bool_decide (Task.status t = Task.PENDING)).
Qed.

(** Who may assign a task.  An employee is refused with 403 unless they
    own the task and name themselves; being the current assignee does not
    help.  A request that passes this test and names an existing user is
    served: the assignee is stored, the owner stays, a status other than
    [pending] stays, and no other task changes. *)
Lemma assign_task_gates db task_id assignee_id sub u t :
  users db !! sub = Some u → User.is_active u = true →
  task_id > 0 → assignee_id > 0 → tasks db !! task_id = Some t →
  (User.role u = "employee" ∧ (Task.owner_id t ≠ sub ∨ assignee_id ≠ sub) →
     ∃ detail, request (assign_task task_id assignee_id sub) db
               = (db, Raise (HTTPException 403 detail)))
  ∧ (User.role u ≠ "employee" ∨ (Task.owner_id t = sub ∧ assignee_id = sub) →
     is_Some (users db !! assignee_id) →
     ∃ db' r, request (assign_task task_id assignee_id sub) db = (db', Return r)
              ∧ tasks db' !! task_id = Some r
              ∧ Task.assignee_id r = Some assignee_id
              ∧ Task.owner_id r = Task.owner_id t
              ∧ (Task.status t ≠ Task.PENDING → Task.status r = Task.status t)
              ∧ ∀ j, j ≠ task_id → tasks db' !! j = tasks db !! j).
Proof.
  intros Hu Ha Hid Has Ht. rewrite (run_assign_task _ _ _ _ _ _ Hu Ha Hid Has Ht).
  split.
  - intros [Hr Hcase]. rewrite (bool_decide_true _ Hr). simpl.
    destruct (bool_decide (Task.owner_id t ≠ sub)) eqn:Ho; [by eexists|].
    apply bool_decide_eq_false in Ho.
    destruct Hcase as [?|Hne]; [done|].
    rewrite (bool_decide_true _ Hne). by eexists.
  - intros Hcase [ua Hua].
    assert (bool_decide (User.role u = "employee") && bool_decide (Task.owner_id t ≠ sub)
            = false) as ->.
    { apply andb_false_iff. destruct Hcase as [Hr|[Ho _]].
      - left. by apply bool_decide_eq_false.
      - right. apply bool_decide_eq_false. by intros []. }
    assert (bool_decide (User.role u = "employee") && bool_decide (assignee_id ≠ sub)
            = false) as ->.
    { apply andb_false_iff. destruct Hcase as [Hr|[_ Hs]].
      - left. by apply bool_decide_eq_false.
      - right. apply bool_decide_eq_false. by intros []. }
    rewrite (bool_decide_false (users db !! assignee_id = None)) by (by rewrite Hua).
    eexists _, _. split; [done|]. simpl. rewrite lookup_insert_eq.
    split; [done|].
    destruct (bool_decide (Task.status t = Task.PENDING)) eqn:Hp; simpl.
    + apply bool_decide_eq_true in Hp.
      repeat split; try done. intros j Hj. by rewrite lookup_insert_ne.
    + repeat split; try done. intros j Hj. by rewrite lookup_insert_ne.
Qed.

Lemma assign_task_gates_witness :
  ((("employee" : string) = "employee" ∧ (3 ≠ 3 ∨ 5 ≠ 3)) →
     ∃ detail, request (assign_task 1 5 3) sample_db
               = (sample_db, Raise (HTTPException 403 detail)))
  ∧ ((("employee" : string) ≠ "employee" ∨ (3 = 3 ∧ 5 = 3)) →
     is_Some (users sample_db !! 5) →
     ∃ db' r, request (assign_task 1 5 3) sample_db = (db', Return r)
              ∧ tasks db' !! 1 = Some r
              ∧ Task.assignee_id r = Some 5
              ∧ Task.owner_id r = 3
              ∧ (Task.status sample_task ≠ Task.PENDING →
                 Task.status r = Task.status sample_task)
              ∧ ∀ j, j ≠ 1 → tasks db' !! j = tasks sample_db !! j).
Proof.
  apply (assign_task_gates sample_db 1 5 3
           {| User.role := "employee"; User.is_active := true |} sample_task);
    [reflexivity | reflexivity | reflexivity | reflexivity | reflexivity].
Defined.

(** [update_task] refuses an employee who is neither owner nor assignee
    of the task, and an employee who names another user as assignee;
    nothing is written. *)
Lemma update_task_employee_gates db now task_id task_in sub u t :
  users db !! sub = Some u → User.is_active u = true →
  User.role u = "employee" →
  task_id > 0 → tasks db !! task_id = Some t →
  (Task.owner_id t ≠ sub ∧ Task.assignee_id t ≠ Some sub)
  ∨ (∃ a, attr (TaskUpdate.assignee_id task_in) = Some a ∧ a ≠ sub) →
  ∃ detail, request (update_task now task_id task_in sub) db
            = (db, Raise (HTTPException 403 detail)).
Proof.
  intros Hu Ha Hrole Hid Ht Hcase.
  unfold request, update_task, mbind at 1, Handler_bind at 1.
  rewrite run_get_current_active_user. simpl. rewrite Hu, Ha.
  unfold validate. run_handler. rewrite (bool_decide_true _ Hid). simpl.
  rewrite Ht. unfold employee_not_on_task. simpl. rewrite Hrole. simpl.
  destruct (bool_decide (Task.owner_id t ≠ sub) && bool_decide (Task.assignee_id t ≠ Some sub))
    eqn:Hon; simpl; [by eexists|].
  destruct Hcase as [[Ho Has]|(a & Hattr & Hne)].
  - by rewrite (bool_decide_true _ Ho), (bool_decide_true _ Has) in Hon.
  - rewrite Hattr.
    rewrite (bool_decide_true (Some a ≠ None)) by done.
    rewrite (bool_decide_true (Some a ≠ Some sub)) by congruence.
    by eexists.
Qed.

Lemma update_task_employee_gates_witness :
  ∃ detail, request (update_task 1700200000 1 (task_update_assignee 5) 3) sample_db
            = (sample_db, Raise (HTTPException 403 detail)).
Proof.
  apply (update_task_employee_gates sample_db 1700200000 1 (task_update_assignee 5) 3
           {| User.role := "employee"; User.is_active := true |} sample_task);
    [reflexivity | reflexivity | reflexivity | reflexivity | reflexivity |].
  right. exists 5. split; [reflexivity | discriminate].
Defined.

(** When [update_task], [complete_task], [assign_task], [create_task] or
    [delete_task] raises, or the validation of its parameters refuses the
    call, nothing has been written: every [HTTPException] is raised before
    the commit, and a commit that meets NULL in a required column stores
    none of the assignments.  This is about the exceptions of the handler.
    An error in the serialisation of the row that a handler has returned
    comes after its commit and is no part of the statement. *)
Lemma task_failures_write_nothing db db' now task_id sub exn :
  (∀ task_in, request (update_task now task_id task_in sub) db = (db', Raise exn) →
              db' = db)
  ∧ (∀ p, request (complete_task now task_id p sub) db = (db', Raise exn) → db' = db)
  ∧ (∀ a, request (assign_task task_id a sub) db = (db', Raise exn) → db' = db)
  ∧ (∀ task_in, request (create_task task_in sub) db = (db', Raise exn) → db' = db)
  ∧ (request (delete_task task_id sub) db = (db', Raise exn) → db' = db).
Proof.
  repeat split; intros;
    match goal with H : request _ _ = _ |- _ => revert H end.
  - unfold request, update_task, mbind at 1, Handler_bind at 1.
    rewrite run_get_current_active_user. simpl.
    destruct (users db !! sub) as [u|]; [|by intros [= <- _]].
    destruct (User.is_active u); [|by intros [= <- _]].
    unfold validate. run_handler.
    destruct (bool_decide (task_id > 0)); simpl; [|by intros [= <- _]].
    destruct (tasks db !! task_id) as [t|]; [|by intros [= <- _]].
    destruct (employee_not_on_task _ _); simpl; [by intros [= <- _]|].
    destruct (_ && bool_decide (attr (TaskUpdate.assignee_id task_in) ≠ Some sub));
      simpl; [by intros [= <- _]|].
    destruct (bool_decide (attr (TaskUpdate.client_id task_in) ≠ None) && _);
      simpl; [by intros [= <- _]|].
    destruct (bool_decide (attr (TaskUpdate.assignee_id task_in) ≠ None) && _);
      simpl; [by intros [= <- _]|].
    destruct (task_setattrs _ _); simpl; [done|by intros [= <- _]].
  - unfold request, complete_task, mbind at 1, Handler_bind at 1.
    rewrite run_get_current_active_user. simpl.
    destruct (users db !! sub) as [u|]; [|by intros [= <- _]].
    destruct (User.is_active u); [|by intros [= <- _]].
    unfold validate. run_handler.
    destruct (bool_decide (task_id > 0)); simpl; [|by intros [= <- _]].
    destruct (bool_decide (0 ≤ p ≤ 100)%Z); simpl; [|by intros [= <- _]].
    destruct (tasks db !! task_id) as [t|]; [|by intros [= <- _]].
    destruct (employee_not_on_task _ _); simpl; [by intros [= <- _]|done].
  - unfold request, assign_task, mbind at 1, Handler_bind at 1.
    rewrite run_get_current_active_user. simpl.
    destruct (users db !! sub) as [u|]; [|by intros [= <- _]].
    destruct (User.is_active u); [|by intros [= <- _]].
    unfold validate. run_handler.
    destruct (bool_decide (task_id > 0)); simpl; [|by intros [= <- _]].
    destruct (bool_decide (a > 0)); simpl; [|by intros [= <- _]].
    destruct (tasks db !! task_id) as [t|]; [|by intros [= <- _]].
    destruct (bool_decide (User.role u = "employee") && bool_decide (Task.owner_id t ≠ sub));
      simpl; [by intros [= <- _]|].
    destruct (bool_decide (User.role u = "employee") && bool_decide (a ≠ sub));
      simpl; [by intros [= <- _]|].
    destruct (users db !! a); simpl; [done|by intros [= <- _]].
  - unfold request, create_task, mbind at 1, Handler_bind at 1.
    rewrite run_get_current_active_user. simpl.
    destruct (users db !! sub) as [u|]; [|by intros [= <- _]].
    destruct (User.is_active u); [|by intros [= <- _]].
    run_handler.
    destruct (truthy_int (TaskCreate.client_id task_in)); simpl;
      [destruct (TaskCreate.client_id task_in) as [c|]; simpl;
         [destruct (clients db !! c); simpl|]; [|by intros [= <- _]..]|];
      (destruct (truthy_int (TaskCreate.assignee_id task_in)); simpl;
         [destruct (TaskCreate.assignee_id task_in) as [a|]; simpl;
            [destruct (users db !! a); simpl|]; [|by intros [= <- _]..]|]);
      try done;
      (destruct (bool_decide (User.role u = "employee") && _); simpl;
         [by intros [= <- _]|done]).
  - unfold request, delete_task, mbind at 1, Handler_bind at 1.
    rewrite run_get_current_active_user. simpl.
    destruct (users db !! sub) as [u|]; [|by intros [= <- _]].
    destruct (User.is_active u); [|by intros [= <- _]].
    unfold validate. run_handler.
    destruct (bool_decide (task_id > 0)); simpl; [|by intros [= <- _]].
    destruct (tasks db !! task_id) as [t|]; [|by intros [= <- _]].
    destruct (bool_decide (User.role u = "employee") && _); simpl; [by intros [= <- _]|done].
Qed.

Lemma task_failures_write_nothing_witness :
  (request (assign_task 1 5 3) sample_db).1 = sample_db.
Proof.
  exact (proj1 (proj2 (proj2 (task_failures_write_nothing sample_db
                                (request (assign_task 1 5 3) sample_db).1 0 1 3
                                (HTTPException 403 "You can only assign tasks to yourself"))))
           5 eq_refl).
Defined.

(** ** Contacts and quotations: deleting and updating *)




Lemma quotation_setattrs_keeps u q r :
  quotation_setattrs u q = Some r →
  Quotation.version r = Quotation.version q
  ∧ Quotation.client_id r = Quotation.client_id q.
Proof.
  unfold quotation_setattrs. intros H.
  destruct (setattr_required (QuotationUpdate.html_content u) _); simpl in H; [|done].
  destruct (setattr_required (QuotationUpdate.status u) _); simpl in H; [|done].
  by simplify_eq.
Qed.

(** An update of a quotation that returns changes neither its version nor
    its client, and touches no other quotation. *)
Lemma update_client_quotation_keeps_version
    db db' now client_id quotation_id quotation_in sub q r :
  quotations db !! quotation_id = Some q →
  request (update_client_quotation now client_id quotation_id quotation_in sub) db
    = (db', Return r) →
  Quotation.version r = Quotation.version q
  ∧ Quotation.client_id r = client_id ∧ Quotation.client_id q = client_id
  ∧ quotations db' !! quotation_id = Some r
  ∧ ∀ j, j ≠ quotation_id → quotations db' !! j = quotations db !! j.
Proof.
  intros Hq.
  unfold request, update_client_quotation, mbind at 1, Handler_bind at 1.
  rewrite run_get_current_manager_or_admin_user. simpl.
  destruct (users db !! sub) as [u|]; [|done].
  destruct (User.is_active u); [|done].
  destruct (bool_decide (User.role u ∈ ["admin"; "manager"])); [|done].
  unfold validate. run_handler.
  destruct (bool_decide (client_id > 0)); simpl; [|done].
  destruct (bool_decide (quotation_id > 0)); simpl; [|done].
  unfold child_of. rewrite Hq.
  case_bool_decide as Hcl; simpl; [|done].
  destruct (quotation_setattrs _ _) as [r'|] eqn:Hset; simpl; [|done].
  intros [= <- <-]. simpl.
  destruct (quotation_setattrs_keeps _ _ _ Hset) as [Hv Hc].
  rewrite Hv, Hc, lookup_insert_eq.
  repeat split; try done.
  - by destruct (_ && _).
  - by destruct (_ && _).
  - intros j Hj. by rewrite lookup_insert_ne.
Qed.

Lemma update_client_quotation_keeps_version_witness :
  let q := {| Quotation.client_id := 2; Quotation.version := 2;
              Quotation.html_content := "<p>Fibre 100</p>";
              Quotation.status := Quotation.ACCEPTED;
              Quotation.sent_at := Some 1645000000 |} in
  let r := {| Quotation.client_id := 2; Quotation.version := 2;
              Quotation.html_content := "<p>Fibre 100</p>";
              Quotation.status := Quotation.REJECTED;
              Quotation.sent_at := Some 1645000000 |} in
  Quotation.version r = Quotation.version q
  ∧ Quotation.client_id r = 2 ∧ Quotation.client_id q = 2
  ∧ quotations (with_quotations sample_db (<[2 := r]> (quotations sample_db))) !! 2
    = Some r
  ∧ ∀ j, j ≠ 2 →
         quotations (with_quotations sample_db (<[2 := r]> (quotations sample_db))) !! j
         = quotations sample_db !! j.
Proof.
  exact (update_client_quotation_keeps_version sample_db _ 1700200000 2 2
           (quotation_status_update Quotation.REJECTED) 2 _ _ eq_refl
           (eq_refl : request (update_client_quotation 1700200000 2 2
                                 (quotation_status_update Quotation.REJECTED) 2) sample_db
                      = (_, Return _))).
Defined.

(** When one of the contact, quotation or client handlers raises, or the
    validation of its parameters refuses the call, nothing has been
    written: in particular an update of a contact that fails at the commit,
    on NULL in a required column, has not demoted the primary contact it
    had found.  This is about the exceptions of the handler.  An error in
    the serialisation of the row that a handler has returned comes after
    its commit and is no part of the statement. *)
Lemma client_failures_write_nothing db db' now client_id id sub exn :
  (∀ client_in, request (update_client now client_id client_in sub) db = (db', Raise exn) →
                db' = db)
  ∧ (∀ contact_in,
       request (create_client_contact client_id contact_in sub) db = (db', Raise exn) →
       db' = db)
  ∧ (∀ contact_in,
       request (update_client_contact client_id id contact_in sub) db = (db', Raise exn) →
       db' = db)
  ∧ (request (delete_client_contact client_id id sub) db = (db', Raise exn) → db' = db)
  ∧ (∀ quotation_in,
       request (create_client_quotation client_id quotation_in sub) db = (db', Raise exn) →
       db' = db)
  ∧ (∀ quotation_in,
       request (update_client_quotation now client_id id quotation_in sub) db
         = (db', Raise exn) →
       db' = db).
Proof.
  repeat split; intros;
    match goal with H : request _ _ = _ |- _ => revert H end.
  - unfold request, update_client, mbind at 1, Handler_bind at 1.
    rewrite run_get_current_manager_or_admin_user. simpl.
    destruct (users db !! sub) as [u|]; [|by intros [= <- _]].
    destruct (User.is_active u); [|by intros [= <- _]].
    destruct (bool_decide (User.role u ∈ ["admin"; "manager"])); [|by intros [= <- _]].
    unfold validate. run_handler.
    destruct (bool_decide (client_id > 0)); simpl; [|by intros [= <- _]].
    destruct (clients db !! client_id) as [c|]; [|by intros [= <- _]].
    destruct (client_setattrs _ _); simpl; [done|by intros [= <- _]].
  - unfold request, create_client_contact, mbind at 1, Handler_bind at 1.
    rewrite run_get_current_active_user. simpl.
    destruct (users db !! sub) as [u|]; [|by intros [= <- _]].
    destruct (User.is_active u); [|by intros [= <- _]].
    unfold validate. run_handler.
    destruct (bool_decide (client_id > 0)); simpl; [|by intros [= <- _]].
    destruct (clients db !! client_id) as [c|]; simpl; [|by intros [= <- _]].
    destruct (ContactCreate.is_primary contact_in); simpl; [|done].
    by destruct (first _ (contacts db)) as [[k c0]|].
  - unfold request, update_client_contact, mbind at 1, Handler_bind at 1.
    rewrite run_get_current_active_user. simpl.
    destruct (users db !! sub) as [u|]; [|by intros [= <- _]].
    destruct (User.is_active u); [|by intros [= <- _]].
    unfold validate. run_handler.
    destruct (bool_decide (client_id > 0)); simpl; [|by intros [= <- _]].
    destruct (bool_decide (id > 0)); simpl; [|by intros [= <- _]].
    destruct (child_of _ _ _ _) as [c0|]; simpl; [|by intros [= <- _]].
    destruct (bool_decide (attr (ContactUpdate.is_primary contact_in) = Some true) && _);
      simpl.
    + destruct (first _ (contacts db)) as [[k c1]|]; simpl;
        (destruct (contact_setattrs _ _); simpl; [done|by intros [= <- _]]).
    + destruct (contact_setattrs _ _); simpl; [done|by intros [= <- _]].
  - unfold request, delete_client_contact, mbind at 1, Handler_bind at 1.
    rewrite run_get_current_active_user. simpl.
    destruct (users db !! sub) as [u|]; [|by intros [= <- _]].
    destruct (User.is_active u); [|by intros [= <- _]].
    unfold validate. run_handler.
    destruct (bool_decide (client_id > 0)); simpl; [|by intros [= <- _]].
    destruct (bool_decide (id > 0)); simpl; [|by intros [= <- _]].
    destruct (child_of _ _ _ _) as [c0|]; simpl; [done|by intros [= <- _]].
  - unfold request, create_client_quotation, mbind at 1, Handler_bind at 1.
    rewrite run_get_current_manager_or_admin_user. simpl.
    destruct (users db !! sub) as [u|]; [|by intros [= <- _]].
    destruct (User.is_active u); [|by intros [= <- _]].
    destruct (bool_decide (User.role u ∈ ["admin"; "manager"])); [|by intros [= <- _]].
    unfold validate. run_handler.
    destruct (bool_decide (client_id > 0)); simpl; [|by intros [= <- _]].
    destruct (clients db !! client_id) as [c|]; simpl; [done|by intros [= <- _]].
  - unfold request, update_client_quotation, mbind at 1, Handler_bind at 1.
    rewrite run_get_current_manager_or_admin_user. simpl.
    destruct (users db !! sub) as [u|]; [|by intros [= <- _]].
    destruct (User.is_active u); [|by intros [= <- _]].
    destruct (bool_decide (User.role u ∈ ["admin"; "manager"])); [|by intros [= <- _]].
    unfold validate. run_handler.
    destruct (bool_decide (client_id > 0)); simpl; [|by intros [= <- _]].
    destruct (bool_decide (id > 0)); simpl; [|by intros [= <- _]].
    destruct (child_of _ _ _ _) as [q|]; simpl; [|by intros [= <- _]].
    destruct (quotation_setattrs _ _); simpl; [done|by intros [= <- _]].
Qed.

Lemma client_failures_write_nothing_witness :
  (request (update_client_contact 1 2 nameless_primary_update 3) sample_db).1 = sample_db.
Proof.
  exact (proj1 (proj2 (proj2 (client_failures_write_nothing sample_db
                                (request (update_client_contact 1 2
                                            nameless_primary_update 3) sample_db).1
                                0 1 2 3 IntegrityError)))
           nameless_primary_update eq_refl).
Defined.

(** ** Users and dependencies *)

Lemma run_get_current_admin_user sub s :
  get_current_admin_user sub s =
    match users (pending s) !! sub with
    | Some u =>
        if User.is_active u then
          if bool_decide (User.role u ≠ "admin")
          then (s, Raise (HTTPException 403 "The user doesn't have enough privileges"))
          else (s, Return (sub, u))
        else (s, Raise (HTTPException 400 "Inactive user"))
    | None => (s, Raise (HTTPException 401 "Could not validate credentials"))
    end.
Proof.
  unfold get_current_admin_user, mbind, Handler_bind.
  rewrite run_get_current_active_user.
  destruct (users (pending s) !! sub) as [u|]; simpl; [|done].
  destruct (User.is_active u); simpl; [|done].
  by case_bool_decide.
Qed.

(** [delete_user] returns only for an active admin who deletes another,
    existing user: it then removes that user and no other, and the caller
    is still there.  No request deletes the caller's own account. *)
Lemma delete_user_effect db db' user_id sub r :
  request (delete_user user_id sub) db = (db', Return r) →
  users db !! user_id = Some r
  ∧ user_id ≠ sub
  ∧ (∃ u, users db !! sub = Some u ∧ User.is_active u = true ∧ User.role u = "admin")
  ∧ users db' !! user_id = None
  ∧ users db' !! sub = users db !! sub
  ∧ ∀ j, j ≠ user_id → users db' !! j = users db !! j.
Proof.
  unfold request, delete_user, mbind at 1, Handler_bind at 1.
  rewrite run_get_current_admin_user. simpl.
  destruct (users db !! sub) as [u|] eqn:Hu; [|done].
  destruct (User.is_active u) eqn:Ha; [|done].
  case_bool_decide as Hrole; [done|].
  run_handler.
  destruct (users db !! user_id) as [r'|] eqn:Hr; [|done].
  case_bool_decide as Hself; simpl; [done|].
  intros [= <- <-]. simpl.
  split; [done|]. split; [done|]. split.
  { exists u. split; [done|]. split; [done|].
    destruct (decide (User.role u = "admin")); [done|by destruct Hrole]. }
  split; [apply lookup_delete_eq|].
  split; [rewrite lookup_delete_ne; [done|congruence]|].
  intros j Hj. by apply lookup_delete_ne.
Qed.

Lemma delete_user_effect_witness :
  users sample_db !! 5 = Some {| User.role := "employee"; User.is_active := true |}
  ∧ 5 ≠ 1
  ∧ (∃ u, users sample_db !! 1 = Some u ∧ User.is_active u = true
          ∧ User.role u = "admin")
  ∧ users (with_users sample_db (delete 5 (users sample_db))) !! 5 = None
  ∧ users (with_users sample_db (delete 5 (users sample_db))) !! 1
    = users sample_db !! 1
  ∧ ∀ j, j ≠ 5 → users (with_users sample_db (delete 5 (users sample_db))) !! j
                 = users sample_db !! j.
Proof.
  exact (delete_user_effect sample_db _ 5 1 _
           (eq_refl : request (delete_user 5 1) sample_db = (_, Return _))).
Defined.

(** An admin who asks for the deletion of the own account gets 400, and
    nothing is written. *)
Lemma delete_user_refuses_self db sub u :
  users db !! sub = Some u → User.is_active u = true → User.role u = "admin" →
  request (delete_user sub sub) db
  = (db, Raise (HTTPException 400 "Cannot delete your own user account")).
Proof.
  intros Hu Ha Hrole.
  unfold request, delete_user, mbind at 1, Handler_bind at 1.
  rewrite run_get_current_admin_user. simpl. rewrite Hu, Ha, Hrole. simpl.
  run_handler. rewrite Hu. by rewrite bool_decide_true.
Qed.

Lemma delete_user_refuses_self_witness :
  request (delete_user 1 1) sample_db
  = (sample_db, Raise (HTTPException 400 "Cannot delete your own user account")).
Proof.
  exact (delete_user_refuses_self sample_db 1
           {| User.role := "admin"; User.is_active := true |} eq_refl eq_refl eq_refl).
Defined.

(** [get_user_by_id] never writes, and returns a user exactly when the
    row exists and the caller is an admin or asks for the own row; a
    caller who is neither gets 403 whether the row exists or not. *)
Lemma get_user_by_id_visibility db user_id sub u :
  users db !! sub = Some u → User.is_active u = true →
  (request (get_user_by_id user_id sub) db).1 = db
  ∧ (∀ r, (request (get_user_by_id user_id sub) db).2 = Return r ↔
          users db !! user_id = Some r ∧ (User.role u = "admin" ∨ sub = user_id))
  ∧ (User.role u ≠ "admin" → sub ≠ user_id →
     (request (get_user_by_id user_id sub) db).2
     = Raise (HTTPException 403 "The user doesn't have enough privileges")).
Proof.
  intros Hu Ha.
  assert (request (get_user_by_id user_id sub) db
          = (db, if bool_decide (User.role u ≠ "admin") && bool_decide (sub ≠ user_id)
                 then Raise (HTTPException 403 "The user doesn't have enough privileges")
                 else match users db !! user_id with
                      | Some r => Return r
                      | None => Raise (HTTPException 404 "User not found")
                      end)) as ->.
  { unfold request, get_user_by_id, mbind at 1, Handler_bind at 1.
    rewrite run_get_current_active_user. simpl. rewrite Hu, Ha. simpl.
    destruct (bool_decide (User.role u ≠ "admin") && bool_decide (sub ≠ user_id));
      simpl; [done|].
    run_handler. by destruct (users db !! user_id). }
  simpl. split; [done|]. split.
  - intros r.
    destruct (bool_decide (User.role u ≠ "admin")) eqn:Hr; simpl.
    + apply bool_decide_eq_true in Hr.
      destruct (bool_decide (sub ≠ user_id)) eqn:Hs; simpl.
      * apply bool_decide_eq_true in Hs. split; [done|]. by intros [_ [?|?]].
      * apply bool_decide_eq_false in Hs.
        assert (sub = user_id) by (destruct (decide (sub = user_id)); [done|by destruct Hs]).
        destruct (users db !! user_id); split; try done.
        -- intros [= <-]. split; [done|by right].
        -- by intros [[= <-] _].
        -- by intros [[=] _].
    + apply bool_decide_eq_false in Hr.
      assert (User.role u = "admin")
        by (destruct (decide (User.role u = "admin")); [done|by destruct Hr]).
      destruct (users db !! user_id); split; try done.
      * intros [= <-]. split; [done|by left].
      * by intros [[= <-] _].
      * by intros [[=] _].
  - intros Hr Hs. by rewrite (bool_decide_true _ Hr), (bool_decide_true _ Hs).
Qed.

Lemma get_user_by_id_visibility_witness :
  (request (get_user_by_id 5 3) sample_db).1 = sample_db
  ∧ (∀ r, (request (get_user_by_id 5 3) sample_db).2 = Return r ↔
          users sample_db !! 5 = Some r ∧ (("employee" : string) = "admin" ∨ 3 = 5))
  ∧ (("employee" : string) ≠ "admin" → 3 ≠ 5 →
     (request (get_user_by_id 5 3) sample_db).2
     = Raise (HTTPException 403 "The user doesn't have enough privileges")).
Proof.
  exact (get_user_by_id_visibility sample_db 5 3
           {| User.role := "employee"; User.is_active := true |} eq_refl eq_refl).
Defined.

(** The role dependencies: an inactive user passes none of them, whatever
    the role; an active user passes the admin gate only as [admin], the
    manager gate as [admin] or [manager], the finance gate as [admin] or
    [finance]; and none of them writes. *)
Lemma dependency_gates db sub u :
  users db !! sub = Some u →
  let passes (gate : Z → Handler CurrentUser) :=
    request (gate sub) db = (db, Return (sub, u)) in
  let refused (gate : Z → Handler CurrentUser) :=
    ∃ exn, request (gate sub) db = (db, Raise exn) in
  (User.is_active u = false →
     refused get_current_active_user ∧ refused get_current_admin_user
     ∧ refused get_current_manager_or_admin_user
     ∧ refused get_current_finance_admin_or_admin_user)
  ∧ (User.is_active u = true →
     passes get_current_active_user
     ∧ (if bool_decide (User.role u = "admin")
        then passes get_current_admin_user else refused get_current_admin_user)
     ∧ (if bool_decide (User.role u ∈ ["admin"; "manager"])
        then passes get_current_manager_or_admin_user
        else refused get_current_manager_or_admin_user)
     ∧ (if bool_decide (User.role u ∈ ["admin"; "finance"])
        then passes get_current_finance_admin_or_admin_user
        else refused get_current_finance_admin_or_admin_user)).
Proof.
  intros Hu passes refused. subst passes refused. unfold request. simpl.
  rewrite run_get_current_active_user, run_get_current_admin_user,
    run_get_current_manager_or_admin_user, run_get_current_finance_admin_or_admin_user.
  simpl. rewrite Hu.
  split; intros ->; simpl.
  - repeat split; by eexists.
  - split; [done|].
    split; [|split].
    + destruct (decide (User.role u = "admin")) as [Hr|Hr].
      * rewrite (bool_decide_true _ Hr), (bool_decide_false (User.role u ≠ "admin"));
          [done|by intros []].
      * rewrite (bool_decide_false _ Hr), (bool_decide_true _ Hr). by eexists.
    + case_bool_decide; [done|by eexists].
    + case_bool_decide; [done|by eexists].
Qed.

Lemma dependency_gates_witness :
  request (get_current_finance_admin_or_admin_user 4) sample_db
  = (sample_db, Return (4, {| User.role := "finance"; User.is_active := true |})).
Proof.
  exact (proj2 (proj2 (proj2 (proj2 (dependency_gates sample_db 4
                                       {| User.role := "finance"; User.is_active := true |}
                                       eq_refl) eq_refl)))).
Defined.

(** ** How the handlers compose *)

Lemma approve_expense_returns db now expense_id approval sub u e :
  users db !! sub = Some u → User.is_active u = true →
  User.role u ∈ ["admin"; "manager"] →
  expenses db !! expense_id = Some e → Expense.status e = SUBMITTED →
  ∃ r, request (approve_expense now expense_id approval sub) db
       = (with_expenses db (<[expense_id := r]> (expenses db)), Return r)
     ∧ Expense.status r = ExpenseApproval.status approval
     ∧ Expense.approver_id r = Some sub ∧ Expense.approved_at r = Some now.
Proof.
  intros Hu Ha Hr He Hst.
  unfold request, approve_expense, mbind at 1, Handler_bind at 1.
  rewrite run_get_current_manager_or_admin_user. simpl.
  rewrite Hu, Ha, (bool_decide_true _ Hr).
  run_handler. rewrite He, Hst. simpl.
  eexists; split; [done|].
  by destruct (truthy_str (ExpenseApproval.notes approval)).
Qed.

(** The life of an expense: approved by a manager or admin, a submitted
    expense can be reimbursed by a finance user or admin; the row then
    names both, and a second reimbursement is refused with 400 and changes
    nothing. *)
Lemma approve_then_reimburse db now1 now2 expense_id notes m um f uf e :
  users db !! m = Some um → User.is_active um = true →
  User.role um ∈ ["admin"; "manager"] →
  users db !! f = Some uf → User.is_active uf = true →
  User.role uf ∈ ["admin"; "finance"] →
  expenses db !! expense_id = Some e → Expense.status e = SUBMITTED →
  ∃ db1 r1 db2 r2,
    request (approve_expense now1 expense_id
               {| ExpenseApproval.status := APPROVED; ExpenseApproval.notes := notes |} m) db
      = (db1, Return r1)
    ∧ request (reimburse_expense now2 expense_id f) db1 = (db2, Return r2)
    ∧ expenses db2 !! expense_id = Some r2
    ∧ Expense.status r2 = REIMBURSED
    ∧ Expense.approver_id r2 = Some m ∧ Expense.approved_at r2 = Some now1
    ∧ Expense.reimburser_id r2 = Some f ∧ Expense.reimbursed_at r2 = Some now2
    ∧ request (reimburse_expense now2 expense_id f) db2
      = (db2, Raise (HTTPException 400 "Can only reimburse approved expenses")).
Proof.
  intros Hm Hma Hmr Hf Hfa Hfr He Hst.
  destruct (approve_expense_returns db now1 expense_id
              {| ExpenseApproval.status := APPROVED; ExpenseApproval.notes := notes |}
              m um e Hm Hma Hmr He Hst) as (r1 & Happ & Hs1 & Hap1 & Hat1).
  eexists _, r1, _, _. split; [exact Happ|].
  rewrite !run_reimburse_expense. simpl.
  rewrite Hf, Hfa, (bool_decide_true _ Hfr), !lookup_insert_eq.
  rewrite (bool_decide_false (Expense.status r1 ≠ APPROVED)) by (rewrite Hs1; by intros []).
  simpl. split; [done|].
  split; [by simpl; rewrite lookup_insert_eq|].
  simpl. rewrite Hf, Hfa, (bool_decide_true _ Hfr), lookup_insert_eq. simpl.
  by repeat split.
Qed.

Lemma approve_then_reimburse_witness :
  ∃ db1 r1 db2 r2,
    request (approve_expense 1700100000 1
               {| ExpenseApproval.status := APPROVED; ExpenseApproval.notes := None |} 2)
      sample_db = (db1, Return r1)
    ∧ request (reimburse_expense 1700200000 1 4) db1 = (db2, Return r2)
    ∧ expenses db2 !! 1 = Some r2
    ∧ Expense.status r2 = REIMBURSED
    ∧ Expense.approver_id r2 = Some 2 ∧ Expense.approved_at r2 = Some 1700100000
    ∧ Expense.reimburser_id r2 = Some 4 ∧ Expense.reimbursed_at r2 = Some 1700200000
    ∧ request (reimburse_expense 1700200000 1 4) db2
      = (db2, Raise (HTTPException 400 "Can only reimburse approved expenses")).
Proof.
  apply (approve_then_reimburse sample_db 1700100000 1700200000 1 None
           2 {| User.role := "manager"; User.is_active := true |}
           4 {| User.role := "finance"; User.is_active := true |} travel_expense);
    [reflexivity | reflexivity | set_solver | reflexivity | reflexivity | set_solver
    | reflexivity | reflexivity].
Defined.
